(** * turkic: the Mechanical Turk facade (api.py) and the command
      dispatcher (cli.py), embedded in Rocq.

    The development has three layers of definitions followed by the
    theorems:
    - [Py]: the fragment of Python 2.7 the two source files rely on
      (exceptions, truthiness, [str.lower], [str.format], ['%0.2f' % x]);
    - [Api]: [turkic/api.py], the [Server] class, as functions in a monad
      that records every call made on the boto3 client;
    - [Cli]: [turkic/cli.py], the [handlers] registry, the [handler]
      decorator, [LoadCommand], [main] and [help]. *)

From Stdlib Require Import ZArith NArith Ascii String DecimalString DecimalN.
From stdpp Require Import base option list gmap strings sorting.

Local Open Scope string_scope.
Local Open Scope list_scope.

(* ===================================================================== *)
(** * Python fragment *)
(* ===================================================================== *)

Module Py.

(** Exceptions raised by the modelled code or by the built-ins it uses. *)
Inductive exn : Type :=
  | Exception (msg : string)
  | NotImplementedError (msg : string)
  | TypeError
  | ValueError
  | KeyError (key : string)
  | IndexError
  | AttributeError (attr : string)
  | OverflowError
  | SystemExit
  | ClientError (msg : string).

(** Outcome of running a piece of Python: a value, an exception, or
    [Outside] when the run leaves the fragment of the language that is
    modelled here (see [render_field]). *)
Inductive result (A : Type) : Type :=
  | Ret (a : A)
  | Raise (e : exn)
  | Outside.
Arguments Ret {A} a.
Arguments Raise {A} e.
Arguments Outside {A}.

#[global] Instance result_ret : MRet result := @Ret.
#[global] Instance result_bind : MBind result := fun A B k r =>
  match r with
  | Ret a => k a
  | Raise e => Raise e
  | Outside => Outside
  end.
#[global] Instance result_fmap : FMap result := fun A B f r =>
  match r with
  | Ret a => Ret (f a)
  | Raise e => Raise e
  | Outside => Outside
  end.

(** ** Values *)

(** Binary64 floating-point numbers.  [FFinite neg m e] is the number
    [(-1)^neg * m * 2^e]. *)
Inductive float64 : Type :=
  | FFinite (neg : bool) (m : N) (e : Z)
  | FInf (neg : bool)
  | FNan.

(** The finite numbers a binary64 can hold: 53 bits of significand and an
    exponent between -1074 and 971. *)
Definition valid_binary64 (x : float64) : bool :=
  match x with
  | FFinite _ m e => (m <? 2 ^ 53)%N && (-1074 <=? e)%Z && (e <=? 971)%Z
  | _ => true
  end.

Inductive pyval : Type :=
  | VNone
  | VBool (b : bool)
  | VInt (z : Z)
  | VFloat (x : float64)
  | VStr (s : string).

(** Truth value of an object, as tested by [if x:]. *)
Definition truthy (v : pyval) : bool :=
  match v with
  | VNone => false
  | VBool b => b
  | VInt z => negb (z =? 0)%Z
  | VFloat (FFinite _ m _) => negb (m =? 0)%N
  | VFloat _ => true
  | VStr s => negb (String.eqb s EmptyString)
  end.

(** ** Strings *)

(** [str.lower] on a byte string, in the C locale that a Python process
    starts in: the letters A-Z are mapped to a-z, every other byte is
    kept. *)
Definition lower_ascii (c : ascii) : ascii :=
  let n := N_of_ascii c in
  if (65 <=? n)%N && (n <=? 90)%N then ascii_of_N (n + 32) else c.

Fixpoint lower (s : string) : string :=
  match s with
  | EmptyString => EmptyString
  | String c s' => String (lower_ascii c) (lower s')
  end.

(** [str(n)] for an integer. *)
Definition str_of_N (n : N) : string := NilZero.string_of_uint (N.to_uint n).
Definition str_of_Z (z : Z) : string := NilZero.string_of_int (Z.to_int z).

Fixpoint spaces (n : nat) : string :=
  match n with
  | O => EmptyString
  | S n' => String " " (spaces n')
  end.

(** [s.rjust(w)] and [s.ljust(w)] with the blank as fill character. *)
Definition rjust (w : nat) (s : string) : string :=
  spaces (w - String.length s) +:+ s.
Definition ljust (w : nat) (s : string) : string :=
  s +:+ spaces (w - String.length s).

(** ** [str.format] *)

Definition is_digit (c : ascii) : bool :=
  let n := N_of_ascii c in (48 <=? n)%N && (n <=? 57)%N.

Fixpoint all_digits (s : string) : bool :=
  match s with
  | EmptyString => true
  | String c s' => is_digit c && all_digits s'
  end.

Fixpoint nat_of_digits (acc : nat) (s : string) : nat :=
  match s with
  | EmptyString => acc
  | String c s' => nat_of_digits (10 * acc + (nat_of_ascii c - 48)) s'
  end.

Fixpoint has_char (p : ascii -> bool) (s : string) : bool :=
  match s with
  | EmptyString => false
  | String c s' => p c || has_char p s'
  end.

(** Splits a replacement field at its first colon into the argument name
    and the format specification. *)
Fixpoint split_colon (s : string) : string * option string :=
  match s with
  | EmptyString => (EmptyString, None)
  | String c s' =>
      if Ascii.eqb c ":" then (EmptyString, Some s')
      else let '(n, sp) := split_colon s' in (String c n, sp)
  end.

Definition field_special (c : ascii) : bool :=
  Ascii.eqb c "!" || Ascii.eqb c "." || Ascii.eqb c "[" || Ascii.eqb c "]".

Fixpoint kw_lookup (k : string) (kw : list (string * string)) : option string :=
  match kw with
  | [] => None
  | (k', v) :: kw' => if String.eqb k k' then Some v else kw_lookup k kw'
  end.

(** The format specifications in the fragment: none, the empty one, and
    an alignment [<] or [>] followed by a width of at most six digits that
    does not start with a zero. *)
Definition apply_spec (spec : option string) (v : string) : result string :=
  match spec with
  | None => Ret v
  | Some EmptyString => Ret v
  | Some (String a w) =>
      match w with
      | EmptyString => Outside
      | String d _ =>
          if all_digits w && negb (Ascii.eqb d "0") && (String.length w <=? 6)%nat then
            if Ascii.eqb a ">" then Ret (rjust (nat_of_digits 0 w) v)
            else if Ascii.eqb a "<" then Ret (ljust (nat_of_digits 0 w) v)
            else Outside
          else Outside
      end
  end.

(** One replacement field, given the text between its braces.  The
    arguments are the positional and the keyword arguments of [format],
    as the text that [str] gives for them.  A name made of digits is an
    index into the positional arguments, any other name is a keyword.  A
    field with a conversion ([!r]), an attribute or index access,
    automatic numbering ([{}]), an index of more than nine digits or a
    format specification other than those of [apply_spec] is outside the
    fragment. *)
Definition render_field (pos : list string) (kw : list (string * string))
    (field : string) : result string :=
  let '(name, spec) := split_colon field in
  if has_char field_special name then Outside
  else match name with
  | EmptyString => Outside
  | _ =>
      if all_digits name then
        if (String.length name <=? 9)%nat then
          match pos !! nat_of_digits 0 name with
          | Some v => apply_spec spec v
          | None => Raise IndexError
          end
        else Outside
      else
        match kw_lookup name kw with
        | Some v => apply_spec spec v
        | None => Raise (KeyError name)
        end
  end.

(** Scanner state of [str.format]: in literal text, after a single opening
    brace, inside a field (with the text read so far, reversed), after a
    single closing brace. *)
Inductive fstate : Type :=
  | Text
  | Open
  | Field (acc : string)
  | Closing.

Fixpoint rev_onto (s acc : string) : string :=
  match s with
  | EmptyString => acc
  | String c s' => rev_onto s' (String c acc)
  end.

Fixpoint format_from (pos : list string) (kw : list (string * string))
    (st : fstate) (t : string) : result string :=
  match t with
  | EmptyString =>
      match st with
      | Text => Ret EmptyString
      | _ => Raise ValueError
      end
  | String c t' =>
      match st with
      | Text =>
          if Ascii.eqb c "{" then format_from pos kw Open t'
          else if Ascii.eqb c "}" then format_from pos kw Closing t'
          else String c <$> format_from pos kw Text t'
      | Open =>
          if Ascii.eqb c "{" then String "{" <$> format_from pos kw Text t'
          else if Ascii.eqb c "}" then Outside
          else format_from pos kw (Field (String c EmptyString)) t'
      | Field acc =>
          if Ascii.eqb c "}" then
            v ← render_field pos kw (rev_onto acc EmptyString);
            String.append v <$> format_from pos kw Text t'
          else if Ascii.eqb c "{" then Outside
          else format_from pos kw (Field (String c acc)) t'
      | Closing =>
          if Ascii.eqb c "}" then String "}" <$> format_from pos kw Text t'
          else Raise ValueError
      end
  end.

(** [template.format( *pos, **kw )]. *)
Definition format (template : string) (pos : list string)
    (kw : list (string * string)) : result string :=
  format_from pos kw Text template.

(** ** ['%0.2f' % x] *)

(** The non-negative dyadic [m * 2^e], times one hundred, rounded to the
    nearest integer, ties to even: the digits that the conversion [%.2f]
    prints for a finite float. *)
Definition cents (m : N) (e : Z) : N :=
  match e with
  | Zneg p =>
      let den := (2 ^ Npos p)%N in
      let num := (m * 100)%N in
      let q := (num / den)%N in
      let r := (num mod den)%N in
      if (2 * r <? den)%N then q
      else if (den <? 2 * r)%N then (q + 1)%N
      else if N.even q then q else (q + 1)%N
  | _ => (m * 2 ^ Z.to_N e * 100)%N
  end.

Definition digit (n : N) : ascii := ascii_of_N (48 + n).

Definition two_digits (n : N) : string :=
  String (digit (n / 10)) (String (digit (n mod 10)) EmptyString).

Definition sign_prefix (neg : bool) : string := if neg then "-" else EmptyString.

Definition fixed2 (neg : bool) (c : N) : string :=
  sign_prefix neg +:+ str_of_N (c / 100) +:+ "." +:+ two_digits (c mod 100).

Definition float_2f (x : float64) : string :=
  match x with
  | FFinite neg m e => fixed2 neg (cents m e)
  | FInf neg => sign_prefix neg +:+ "inf"
  | FNan => "nan"
  end.

(** The integer nearest to [num / den], the even one of the two at a
    tie. *)
Definition round_half_even (num den : N) : N :=
  let q := (num / den)%N in
  let r := (num mod den)%N in
  if (2 * r <? den)%N then q
  else if (den <? 2 * r)%N then (q + 1)%N
  else if N.even q then q else (q + 1)%N.

(** [float(z)] for an integer: an integer of at most 53 bits is a float as
    it is; a longer one is rounded to 53 bits, ties to even (the
    significand is [2^53] after a carry, the same number as [2^52] with the
    exponent one higher), and [OverflowError] is raised when the rounded
    number is [2^1024] or more. *)
Definition float_of_int (z : Z) : result float64 :=
  let a := Z.abs_N z in
  let k := N.log2 a in
  if (k <? 53)%N then Ret (FFinite (z <? 0)%Z a 0)
  else
    let shift := (k - 52)%N in
    let m := round_half_even a (2 ^ shift) in
    if (2 ^ 1024 <=? m * 2 ^ shift)%N then Raise OverflowError
    else Ret (FFinite (z <? 0)%Z m (Z.of_N shift)).

(** The operand of a float conversion of [%]: in Python 2.7, the version
    the sources are written for, an operand that cannot be made a float,
    an integer beyond the range of a float included, is reported as
    [TypeError] (float argument required). *)
Definition float_required (r : result float64) : result float64 :=
  match r with
  | Raise _ => Raise TypeError
  | _ => r
  end.

(** ['%0.2f' % v]: the operand is converted to a float, which fails with
    [TypeError] for an operand that is not a number. *)
Definition percent_02f (v : pyval) : result string :=
  match v with
  | VFloat x => Ret (float_2f x)
  | VInt z => float_2f <$> float_required (float_of_int z)
  | VBool b => float_2f <$> float_required (float_of_int (if b then 1 else 0))
  | VNone | VStr _ => Raise TypeError
  end.

(** Recognises the strings made of an optional minus sign, one or more
    digits, a point and exactly two digits. *)
Fixpoint digits_point_two (seen : bool) (s : string) : bool :=
  match s with
  | EmptyString => false
  | String c s' =>
      if Ascii.eqb c "." then
        seen && match s' with
                | String d1 (String d2 EmptyString) => is_digit d1 && is_digit d2
                | _ => false
                end
      else is_digit c && digits_point_two true s'
  end.

Definition two_decimals (s : string) : bool :=
  match s with
  | EmptyString => false
  | String c s' =>
      if Ascii.eqb c "-" then digits_point_two false s'
      else digits_point_two false s
  end.

(** The integers that round to a float: those below [2^1024 - 2^970] in
    absolute value. *)
Definition in_float_range (z : Z) : bool := (Z.abs z <? 2 ^ 1024 - 2 ^ 970)%Z.

(** The amounts that [%0.2f] writes as a number: the finite floats, the
    booleans and the integers that round to a float. *)
Definition serializable_amount (v : pyval) : bool :=
  match v with
  | VFloat (FFinite _ _ _) | VBool _ => true
  | VInt z => in_float_range z
  | _ => false
  end.

(** The strings without an opening or closing brace. *)
Definition is_brace (c : ascii) : bool := Ascii.eqb c "{" || Ascii.eqb c "}".
Definition brace_free (s : string) : bool := negb (has_char is_brace s).

End Py.

(* ===================================================================== *)
(** * turkic/api.py *)
(* ===================================================================== *)

Module Api.
Import Py.

(** Operations of the boto3 MTurk client: those the facade names, and
    [send_bonus], the client's operation that pays a bonus. *)
Inductive remote_op : Type :=
  | create_hit
  | update_expiration_for_hit
  | approve_assignment
  | reject_assignment
  | send_bonus
  | create_worker_block
  | delete_worker_block
  | notify_workers
  | get_account_balance.

#[global] Instance remote_op_eq_dec : EqDecision remote_op.
Proof. solve_decision. Defined.

(** A keyword argument of a client call: an object or a list of objects. *)
Inductive arg : Type :=
  | AVal (v : pyval)
  | AList (l : list pyval).

Record remote_call : Type := RemoteCall {
  op : remote_op;
  kwargs : gmap string arg
}.

Abbreviation response := (gmap string pyval).

(** The facade object: [self.localhost] and [self.client].  The client is
    opaque: given the calls made so far and the present call it answers or
    raises. *)
Record Server : Type := {
  localhost : string;
  client : list remote_call -> remote_call -> result response
}.

(** Computations of the facade: they extend the log of client calls and
    end with a value or an exception. *)
Definition M (A : Type) : Type := list remote_call -> list remote_call * result A.

#[global] Instance M_ret : MRet M := fun A a log => (log, Ret a).
#[global] Instance M_bind : MBind M := fun A B k m log =>
  match m log with
  | (log', Ret a) => k a log'
  | (log', Raise e) => (log', Raise e)
  | (log', Outside) => (log', Outside)
  end.

Definition lift {A} (r : result A) : M A := fun log => (log, r).
Definition raise {A} (e : exn) : M A := lift (Raise e).

(** [self.client.<op>( **kw )] *)
Definition invoke (self : Server) (o : remote_op) (kw : gmap string arg) : M response :=
  fun log => let c := RemoteCall o kw in (log ++ [c], client self log c).

(** Runs a computation against a client that has not been called yet. *)
Definition calls {A} (m : M A) : list remote_call := fst (m []).

(** An entry of the [qualifications] list of [createhit]. *)
Record qualification : Type := {
  QualificationTypeId : string;
  Comparator : string;
  IntegerValue : pyval
}.

(** Lines 45-66 of [createhit]: the local list [qualifications]. *)
Definition createhit_qualifications
    (minapprovedpercent minapprovedamount countrycode : pyval) : list qualification :=
  let qualifications := [] in
  let qualifications :=
    if truthy minapprovedpercent then
      qualifications ++ [ {| QualificationTypeId := "000000000000000000L0";
                             Comparator := "GreaterThanOrEqualTo";
                             IntegerValue := minapprovedpercent |} ]
    else qualifications in
  let qualifications :=
    if truthy minapprovedamount then
      qualifications ++ [ {| QualificationTypeId := "00000000000000000040";
                             Comparator := "GreaterThanOrEqualTo";
                             IntegerValue := minapprovedamount |} ]
    else qualifications in
  let qualifications :=
    if truthy countrycode then
      qualifications ++ [ {| QualificationTypeId := "00000000000000000071";
                             Comparator := "EqualTo";
                             IntegerValue := countrycode |} ]
    else qualifications in
  qualifications.

(** The one-character string holding a double quote. *)
Definition dquote : string := String "034"%char EmptyString.

Definition question_template : string :=
  "<ExternalQuestion xmlns=" +:+ dquote +:+ "http://mechanicalturk"
  +:+ ".amazonaws.com/AWSMechanicalTurkDataSchemas/"
  +:+ "2006-07-14/ExternalQuestion.xsd" +:+ dquote +:+ ">"
  +:+ "<ExternalURL>{0}/{1}</ExternalURL>"
  +:+ "<FrameHeight>{2}</FrameHeight>"
  +:+ "</ExternalQuestion>".

(** [Server.createhit].  The base URL and the page are byte strings and
    the frame height is an integer; the other arguments are passed on as
    they are. *)
Definition createhit (self : Server) (title description : pyval) (page : string)
    (amount duration lifetime keywords autoapprove : pyval) (height : Z)
    (minapprovedpercent minapprovedamount countrycode : pyval) : M response :=
  reward ← lift (percent_02f amount);
  let r : gmap string arg :=
    list_to_map [ ("Title", AVal title);
                  ("Description", AVal description);
                  ("Keywords", AVal keywords);
                  ("Reward", AVal (VStr reward));
                  ("AssignmentDurationInSeconds", AVal duration);
                  ("AutoApprovalDelayInSeconds", AVal autoapprove);
                  ("LifetimeInSeconds", AVal lifetime) ] in
  let qualifications :=
    createhit_qualifications minapprovedpercent minapprovedamount countrycode in
  question ← lift (format question_template
                          [localhost self; page; str_of_Z height] []);
  let r := <["Question" := AVal (VStr question)]> r in
  invoke self create_hit r.

(** [Server.disable]; [now] is the value of [datetime.utcnow()]. *)
Definition disable (self : Server) (now hitid : pyval) : M response :=
  invoke self update_expiration_for_hit
    (list_to_map [ ("HITId", AVal hitid); ("ExpireAt", AVal now) ]).

(** [Server.purge] *)
Definition purge (self : Server) : M response :=
  raise (Exception "You probably don't want to do this").

(** [Server.accept] *)
Definition accept (self : Server) (assignmentid feedback : pyval) : M response :=
  invoke self approve_assignment
    (list_to_map [ ("AssignmentId", AVal assignmentid);
                   ("RequesterFeedback", AVal feedback) ]).

(** [Server.reject] *)
Definition reject (self : Server) (assignmentid feedback : pyval) : M response :=
  invoke self reject_assignment
    (list_to_map [ ("AssignmentId", AVal assignmentid);
                   ("RequesterFeedback", AVal feedback) ]).

(** [Server.bonus] *)
Definition bonus (self : Server) (workerid assignmentid amount feedback : pyval)
    : M response :=
  bonusamount ← lift (percent_02f amount);
  invoke self reject_assignment
    (list_to_map [ ("WorkerId", AVal workerid);
                   ("AssignmentId", AVal assignmentid);
                   ("BonusAmount", AVal (VStr bonusamount));
                   ("Reason", AVal feedback) ]).

(** [Server.block] *)
Definition block (self : Server) (workerid reason : pyval) : M response :=
  invoke self create_worker_block
    (list_to_map [ ("WorkerId", AVal workerid); ("Reason", AVal reason) ]).

(** [Server.unblock] *)
Definition unblock (self : Server) (workerid reason : pyval) : M response :=
  invoke self delete_worker_block
    (list_to_map [ ("WorkerId", AVal workerid); ("Reason", AVal reason) ]).

(** [Server.email] *)
Definition email (self : Server) (workerid subject message : pyval) : M response :=
  invoke self notify_workers
    (list_to_map [ ("WorkerIds", AList [workerid]);
                   ("Subject", AVal subject);
                   ("MessageText", AVal message) ]).

(** The built-in types handed to [getstatistic]. *)
Inductive pytype : Type := float_type | int_type.

(** [Server.getstatistic] *)
Definition getstatistic (self : Server) (statistic : string) (type : pytype)
    (timeperiod : string) : M pyval :=
  raise (Exception "Not supported by new mturk api").

(** [float(v)]; reading a float out of a string is outside the fragment. *)
Definition py_float (v : pyval) : result pyval :=
  match v with
  | VFloat x => Ret (VFloat x)
  | VInt z => VFloat <$> float_of_int z
  | VBool b => VFloat <$> float_of_int (if b then 1 else 0)
  | VStr _ => Outside
  | VNone => Raise TypeError
  end.

(** [a + b] on integers; float addition is outside the fragment. *)
Definition py_add (a b : pyval) : result pyval :=
  match a, b with
  | VInt x, VInt y => Ret (VInt (x + y))
  | _, _ => Outside
  end.

(** [Server.balance] *)
Definition balance (self : Server) : M pyval :=
  resp ← invoke self get_account_balance ∅;
  match resp !! "AvailableBalance" with
  | Some v => lift (py_float v)
  | None => raise (KeyError "AvailableBalance")
  end.

(** [Server.rewardpayout] *)
Definition rewardpayout (self : Server) : M pyval :=
  reward ← getstatistic self "TotalRewardPayout" float_type "LifeToDate";
  bonus ← getstatistic self "TotalBonusPayout" float_type "LifeToDate";
  lift (py_add reward bonus).

(** [Server.approvalpercentage] *)
Definition approvalpercentage (self : Server) : M pyval :=
  getstatistic self "PercentAssignmentsApproved" float_type "LifeToDate".

(** [Server.feepayout] *)
Definition feepayout (self : Server) : M pyval :=
  reward ← getstatistic self "TotalRewardFeePayout" float_type "LifeToDate";
  bonus ← getstatistic self "TotalBonusFeePayout" float_type "LifeToDate";
  lift (py_add reward bonus).

(** [Server.numcreated] *)
Definition numcreated (self : Server) : M pyval :=
  getstatistic self "NumberHITsCreated" int_type "LifeToDate".

(** ** Reference definitions for the properties *)

(** The question document, as the specification words it: the fixed
    [ExternalQuestion] frame around the URL [base/page] and the frame
    height. *)
Definition external_question (base page : string) (height : Z) : string :=
  "<ExternalQuestion xmlns=" +:+ dquote
  +:+ "http://mechanicalturk.amazonaws.com/AWSMechanicalTurkDataSchemas/2006-07-14/ExternalQuestion.xsd"
  +:+ dquote +:+ ">"
  +:+ "<ExternalURL>" +:+ base +:+ "/" +:+ page +:+ "</ExternalURL>"
  +:+ "<FrameHeight>" +:+ str_of_Z height +:+ "</FrameHeight>"
  +:+ "</ExternalQuestion>".

(** The keys of the request that [createhit] hands to [create_hit]. *)
Definition createhit_keys : gset string :=
  {[ "Title"; "Description"; "Keywords"; "Reward";
     "AssignmentDurationInSeconds"; "AutoApprovalDelayInSeconds";
     "LifetimeInSeconds"; "Question" ]}.

(** The request of [createhit] for a reward already formatted. *)
Definition createhit_request (self : Server) (title description : pyval)
    (page : string) (reward : string) (duration lifetime keywords autoapprove : pyval)
    (height : Z) : remote_call :=
  RemoteCall create_hit
    (<["Question" := AVal (VStr (external_question (localhost self) page height))]>
       (list_to_map [ ("Title", AVal title);
                      ("Description", AVal description);
                      ("Keywords", AVal keywords);
                      ("Reward", AVal (VStr reward));
                      ("AssignmentDurationInSeconds", AVal duration);
                      ("AutoApprovalDelayInSeconds", AVal autoapprove);
                      ("LifetimeInSeconds", AVal lifetime) ])).

(** The two refusals of the facade, under the names the specification
    gives them. *)
Definition OperationRefused : exn := Exception "You probably don't want to do this".
Definition UnsupportedOperationError : exn := Exception "Not supported by new mturk api".

(** A facade whose client answers every call with an empty response;
    used to run the facade on concrete inputs. *)
Definition mock : Server :=
  {| localhost := "https://host"; client := fun _ _ => Ret ∅ |}.

(** A computation that keeps the calls already logged and adds at most
    one. *)
Definition single_shot {A} (m : M A) : Prop :=
  forall log, exists added, (m log).1 = log ++ added /\ length added <= 1.

(** A facade whose client refuses every call. *)
Definition refusing : Server :=
  {| localhost := "https://host";
     client := fun _ _ => Raise (ClientError "AccessDenied") |}.

End Api.

(* ===================================================================== *)
(** * turkic/cli.py *)
(* ===================================================================== *)

Module Cli.
Import Py.

(** The value returned by [parser.parse_args]: attribute names and values. *)
Abbreviation Namespace := (gmap string pyval).

(** What a run of the dispatcher does that can be seen from outside: the
    lines it prints and the calls it makes on registered handlers. *)
Inductive event : Type :=
  | Stdout (line : string)
  | Called (f : string) (rest : list string)
  | Instantiated (cls : string)
  | SetupCalled (cls : string)
  | InstanceCalled (cls : string) (args : Namespace).

(** Computations of the command line: the events so far and the outcome. *)
Definition run (A : Type) : Type := list event * result A.

#[global] Instance run_ret : MRet run := fun A a => ([], Ret a).
#[global] Instance run_bind : MBind run := fun A B k m =>
  match m with
  | (ev, Ret a) => let '(ev', r) := k a in (ev ++ ev', r)
  | (ev, Raise e) => (ev, Raise e)
  | (ev, Outside) => (ev, Outside)
  end.

Definition lift_run {A} (r : result A) : run A := ([], r).
Definition emit (e : event) : run unit := ([e], Ret tt).

(** The [print] statement. *)
Definition print (line : string) : run unit := emit (Stdout line).

(** The parser returned by a handler's [setup]: parsing depends on the
    program name set by the dispatcher and on the remaining tokens. *)
Record ArgumentParser : Type := {
  parse_args : string -> list string -> run Namespace
}.

(** The objects that can be registered: a function called with the
    remaining tokens, or a class with a [setup] attribute, given by what
    its constructor, its [setup] and its [__call__] do. *)
Inductive callable : Type :=
  | Function (name : string) (body : list string -> run unit)
  | Class (name : string) (init : run unit) (setup : run ArgumentParser)
          (call : Namespace -> run unit).

(** [func.__name__] *)
Definition __name__ (f : callable) : string :=
  match f with
  | Function name _ => name
  | Class name _ _ _ => name
  end.

(** The module-level dictionary [handlers]. *)
Abbreviation registry := (gmap string (callable * string)).

(** [handler(help, inname)(func)]: the new state of [handlers] and the value
    returned by the decorator. *)
Definition handler (help : string) (inname : option string) (func : callable)
    (handlers : registry) : registry * callable :=
  let name := match inname with
              | None => __name__ func
              | Some inname => inname
              end in
  (<[lower name := (func, help)]> handlers, func).

(** Modelled from the spec: [HITGroup] is declared in [turkic/models.py],
    which is not among the sources; it is the task specification built
    from the parsed arguments, taken here to hold the keyword arguments of
    its constructor. *)
Record HITGroup : Type := {
  title : pyval;
  description : pyval;
  duration : pyval;
  lifetime : pyval;
  cost : pyval;
  bonus : pyval;
  keywords : pyval
}.

(** [args.name] *)
Definition getattr (args : Namespace) (name : string) : result pyval :=
  match args !! name with
  | Some v => Ret v
  | None => Raise (AttributeError name)
  end.

(** The text that stands for [v] in a replacement field of the fragment:
    [str(v)] for a string, an integer and [None].  A float, whose text
    needs the shortest-digits algorithm, and a boolean, printed as a word
    or as a number depending on the format specification, are outside the
    fragment. *)
Definition format_arg (v : pyval) : result string :=
  match v with
  | VStr s => Ret s
  | VInt z => Ret (str_of_Z z)
  | VNone => Ret "None"
  | VBool _ | VFloat _ => Outside
  end.

(** [args.<name>.format(c = args.plural)] *)
Definition format_plural (args : Namespace) (name : string) : result pyval :=
  template ← getattr args name;
  match template with
  | VStr t =>
      plural ← getattr args "plural";
      c ← format_arg plural;
      VStr <$> format t [] [("c", c)]
  | _ => Raise (AttributeError "format")
  end.

(** Arguments of a method call. *)
Inductive pyobj : Type :=
  | OSelf
  | OArgs (args : Namespace)
  | OGroup (group : HITGroup).

(** A method defined in the class body by [def] with [nparams]
    positional parameters, [self] included, and neither default values nor
    a starred parameter, as [load] is at line 42. *)
Record method : Type := {
  nparams : nat;
  body : list pyobj -> run unit
}.

(** [self.m(actuals)]: the bound method receives [self] before the actual
    arguments, and a call with the wrong number of arguments is a
    [TypeError]. *)
Definition call_bound (m : method) (actuals : list pyobj) : run unit :=
  if decide (S (length actuals) = nparams m) then body m (OSelf :: actuals)
  else lift_run (Raise TypeError).

(** [LoadCommand.load] *)
Definition LoadCommand_load : method :=
  {| nparams := 3;
     body := fun _ => lift_run (Raise (NotImplementedError "load() must be defined")) |}.

(** Lines 33-39: the [HITGroup] built from the parsed arguments. *)
Definition LoadCommand_group (args : Namespace) : result HITGroup :=
  title ← format_plural args "title";
  description ← format_plural args "description";
  duration ← getattr args "duration";
  lifetime ← getattr args "lifetime";
  cost ← getattr args "cost";
  bonus ← getattr args "bonus";
  keywords ← getattr args "keywords";
  mret {| title := title; description := description;
          duration := duration; lifetime := lifetime;
          cost := cost; bonus := bonus; keywords := keywords |}.

(** [LoadCommand.__call__], for an instance of a class whose [load]
    attribute is [load]. *)
Definition LoadCommand_call (load : method) (args : Namespace) : run unit :=
  group ← lift_run (LoadCommand_group args);
  call_bound load [OSelf; OArgs args; OGroup group].

(** Order of [sorted] on the items of [handlers]: the keys of a dictionary
    are distinct, so two items are ordered by their keys, as byte
    strings. *)
Definition item_le (x y : string * (callable * string)) : Prop :=
  String.le x.1 y.1.

#[global] Instance item_le_dec : RelDecision item_le.
Proof. intros x y. unfold item_le. apply _. Defined.

(** [sorted(handlers.items())] *)
Definition sorted_items (handlers : registry) : list (string * (callable * string)) :=
  merge_sort item_le (map_to_list handlers).

Fixpoint help_loop (items : list (string * (callable * string))) : run unit :=
  match items with
  | [] => mret tt
  | (action, (_, help)) :: items' =>
      line ← lift_run (format "{0:>15}   {1:<50}" [action; help] []);
      print line;;
      help_loop items'
  end.

(** [help] *)
Definition help (handlers : registry) : run unit :=
  help_loop (sorted_items handlers).

(** Lines 71-79 of [main]: the call of the handler found for [args[0]]. *)
Definition run_handler (handler : callable) (args : list string) : run unit :=
  match handler with
  | Function f body =>
      emit (Called f (drop 1 args));;
      body (drop 1 args)
  | Class cls init setup call =>
      emit (Instantiated cls);;
      init;;
      emit (SetupCalled cls);;
      parser ← setup;
      parsed ← parse_args parser (default EmptyString (args !! 0%nat)) (drop 1 args);
      emit (InstanceCalled cls parsed);;
      call parsed
  end.

(** [main(args)], run with the dictionary [handlers] and with [sys.argv]. *)
Definition main (handlers : registry) (sys_argv : list string)
    (args : option (list string)) : run unit :=
  let args := match args with
              | None => drop 1 sys_argv
              | Some args => args
              end in
  match args !! 0%nat with
  | None => help handlers
  | Some name =>
      match handlers !! name with
      | None =>
          line ← lift_run (format "Error: Unknown action {0}" [name] []);
          print line
      | Some (handler, _) => run_handler handler args
      end
  end.

(** Modelled from the spec: the commands of [cliutil], a module that is
    not among the sources. *)
Record cliutil : Type := {
  init : callable;
  progress : callable;
  publish : callable;
  compensate : callable;
  setupdb : callable
}.

(** Lines 88-96: the registrations made when the module is loaded,
    depending on whether [import config] succeeds. *)
Definition startup (config : bool) (cu : cliutil) : registry :=
  if config then
    let h := (handler "Report job status" None (progress cu) ∅).1 in
    let h := (handler "Launch work" None (publish cu) h).1 in
    let h := (handler "Pay workers" None (compensate cu) h).1 in
    (handler "Setup the database" None (setupdb cu) h).1
  else
    (handler "Start a new project" None (init cu) ∅).1.

(** ** Reference definitions for the properties *)

(** The key under which [handler(help, inname)(func)] stores [func]. *)
Definition command_name (inname : option string) (func : callable) : string :=
  lower (default (__name__ func) inname).

(** The line that [help] prints for an item of [handlers]. *)
Definition help_line (item : string * (callable * string)) : event :=
  Stdout (rjust 15 item.1 +:+ "   " +:+ ljust 50 item.2.2).

(** The diagnostic of [main] for a token that is not a key of [handlers]. *)
Definition unknown_action (name : string) : run unit :=
  ([Stdout ("Error: Unknown action " +:+ name)], Ret tt).

(** A function named [Load] that prints one line, and the parsed arguments
    of a load command with the default title and description. *)
Definition Load : callable := Function "Load" (fun _ => print "loading").

Definition example_args : Namespace :=
  list_to_map [ ("title", VStr "Image annotation of {c}");
                ("description", VStr "Draw boxes around {c} in this image.");
                ("plural", VStr "cars");
                ("duration", VInt 600);
                ("lifetime", VInt 1209600);
                ("cost", VFloat (FFinite false 5764607523034235 (-58)));
                ("bonus", VFloat (FFinite false 0 0));
                ("keywords", VStr EmptyString) ].

Definition example_group : HITGroup :=
  {| title := VStr "Image annotation of cars";
     description := VStr "Draw boxes around cars in this image.";
     duration := VInt 600;
     lifetime := VInt 1209600;
     cost := VFloat (FFinite false 5764607523034235 (-58));
     bonus := VFloat (FFinite false 0 0);
     keywords := VStr EmptyString |}.

(** A registry all of whose keys are lower-case, as [handler] makes
    them. *)
Definition lowercase_keys (handlers : registry) : Prop :=
  forall k, is_Some (handlers !! k) -> lower k = k.

(** The exceptions that [str.format] raises in the fragment. *)
Definition format_exn (e : exn) : Prop :=
  e = ValueError \/ e = IndexError \/ exists k, e = KeyError k.

(** Lines 45-53: the attributes that [importparser] gives when none of
    its options is on the command line, 0.02 and 0.0 being the floats
    [5764607523034235 * 2^-58] and zero. *)
Definition importparser_defaults : Namespace :=
  list_to_map [ ("title", VStr "Image annotation of {c}");
                ("description", VStr "Draw boxes around {c} in this image.");
                ("cost", VFloat (FFinite false 5764607523034235 (-58)));
                ("duration", VInt 600);
                ("lifetime", VInt 1209600);
                ("keywords", VStr EmptyString);
                ("bonus", VFloat (FFinite false 0 0)) ].

(** A command class whose parser keeps the tokens it cannot read for
    itself: it fails on any token and otherwise returns the defaults. *)
Definition strict_parser : ArgumentParser :=
  {| parse_args := fun prog rest =>
       match rest with
       | [] => ([], Ret importparser_defaults)
       | _ => ([Stdout ("usage: " +:+ prog)], Raise SystemExit)
       end |}.

Definition Dump : callable :=
  Class "Dump" ([], Ret tt) ([], Ret strict_parser) (fun _ => print "dumping").

(** Five functions standing for the commands of [cliutil]. *)
Definition example_cliutil : cliutil :=
  {| init := Function "init" (fun _ => print "init");
     progress := Function "progress" (fun _ => print "progress");
     publish := Function "publish" (fun _ => print "publish");
     compensate := Function "compensate" (fun _ => print "compensate");
     setupdb := Function "setupdb" (fun _ => print "setupdb") |}.

End Cli.

(* ===================================================================== *)
(** * Properties of the Python fragment *)
(* ===================================================================== *)

Module PySpec.
Import Py.

Lemma append_cons (c : ascii) (s t : string) :
  String c s +:+ t = String c (s +:+ t).
Proof. reflexivity. Qed.

Lemma append_empty_r (s : string) : s +:+ EmptyString = s.
Proof.
  induction s as [|c s IH]; [done|].
  change (String c (s +:+ EmptyString) = String c s). by rewrite IH.
Qed.


(** The model on a few inputs. *)
Example format_default_title :
  format "Image annotation of {c}" [] [("c", "cars")] = Ret "Image annotation of cars".
Proof. reflexivity. Qed.

Example format_escaped_braces :
  format "{{c}} is {c}" [] [("c", "cars")] = Ret "{c} is cars".
Proof. reflexivity. Qed.

Example format_missing_keyword : format "{d}" [] [("c", "cars")] = Raise (KeyError "d").
Proof. reflexivity. Qed.

Example format_missing_index : format "{0}/{1}" ["a"] [] = Raise IndexError.
Proof. reflexivity. Qed.

Example format_single_brace : format "a}b" [] [] = Raise ValueError.
Proof. reflexivity. Qed.

Example format_conversion_outside : format "{c!r}" [] [("c", "cars")] = Outside.
Proof. reflexivity. Qed.

Example lower_mixed : lower "LoAd_9Z" = "load_9z".
Proof. reflexivity. Qed.

(** 0.125 and 0.375 are ties, rounded to the even hundredth. *)
Example percent_02f_tie_down : percent_02f (VFloat (FFinite false 1 (-3))) = Ret "0.12".
Proof. reflexivity. Qed.

Example percent_02f_tie_up : percent_02f (VFloat (FFinite false 3 (-3))) = Ret "0.38".
Proof. reflexivity. Qed.

Example percent_02f_negative_small :
  percent_02f (VFloat (FFinite true 1 (-10))) = Ret "-0.00".
Proof. reflexivity. Qed.

Example percent_02f_string : percent_02f (VStr "1") = Raise TypeError.
Proof. reflexivity. Qed.

Lemma lower_ascii_idemp (c : ascii) : lower_ascii (lower_ascii c) = lower_ascii c.
Proof. destruct c as [[] [] [] [] [] [] [] []]; reflexivity. Qed.

Lemma lower_idemp (s : string) : lower (lower s) = lower s.
Proof.
  induction s as [|c s IH]; [reflexivity|].
  simpl. by rewrite lower_ascii_idemp, IH.
Qed.

Lemma digit_is_digit (k : N) : (k < 10)%N -> is_digit (digit k) = true.
Proof.
  intros Hk. unfold is_digit, digit.
  rewrite N_ascii_embedding by lia.
  apply andb_true_iff; split; apply N.leb_le; lia.
Qed.

Lemma is_digit_not_point (c : ascii) : is_digit c = true -> Ascii.eqb c "." = false.
Proof.
  intros Hc. destruct (Ascii.eqb_spec c ".") as [->|]; [discriminate Hc | done].
Qed.

Lemma is_digit_not_minus (c : ascii) : is_digit c = true -> Ascii.eqb c "-" = false.
Proof.
  intros Hc. destruct (Ascii.eqb_spec c "-") as [->|]; [discriminate Hc | done].
Qed.

Lemma string_of_uint_digits (d : Decimal.uint) :
  all_digits (NilEmpty.string_of_uint d) = true.
Proof. induction d; simpl; auto. Qed.

(** The decimal text of a natural number is a non-empty run of digits. *)
Lemma str_of_N_digits (n : N) :
  all_digits (str_of_N n) = true /\ str_of_N n <> EmptyString.
Proof.
  unfold str_of_N, NilZero.string_of_uint.
  destruct (N.to_uint n) eqn:E; simpl;
    (split; [try reflexivity; apply string_of_uint_digits | discriminate]).
Qed.

Lemma digits_point_two_intro (ds : string) (d1 d2 : ascii) (seen : bool) :
  all_digits ds = true ->
  seen = true \/ ds <> EmptyString ->
  is_digit d1 = true -> is_digit d2 = true ->
  digits_point_two seen
    (ds +:+ String "." (String d1 (String d2 EmptyString))) = true.
Proof.
  intros Hds Hne H1 H2. revert seen Hne.
  induction ds as [|c ds IH]; intros seen Hne.
  - destruct Hne as [->|Hne]; [|done]. simpl. by rewrite H1, H2.
  - simpl in Hds. apply andb_true_iff in Hds as [Hc Hds].
    rewrite append_cons. simpl.
    rewrite (is_digit_not_point c Hc), Hc. simpl. apply IH; auto.
Qed.

(** The text printed for a sign and a number of hundredths has the shape
    recognised by [two_decimals]. *)
Lemma fixed2_two_decimals (neg : bool) (c : N) : two_decimals (fixed2 neg c) = true.
Proof.
  unfold fixed2, two_digits.
  destruct (str_of_N_digits (c / 100)) as [Hds Hne].
  assert (H1 : is_digit (digit (c mod 100 / 10)) = true).
  { apply digit_is_digit. apply N.Div0.div_lt_upper_bound.
    change (10 * 10)%N with 100%N. apply N.mod_lt. lia. }
  assert (H2 : is_digit (digit ((c mod 100) mod 10)) = true).
  { apply digit_is_digit. apply N.mod_lt. lia. }
  assert (Hbody : forall seen, digits_point_two seen
            (str_of_N (c / 100) +:+ "." +:+
               String (digit (c mod 100 / 10))
                 (String (digit ((c mod 100) mod 10)) EmptyString)) = true).
  { intros seen. apply digits_point_two_intro; auto. }
  destruct neg; unfold sign_prefix.
  - rewrite append_cons. unfold two_decimals.
    change (Ascii.eqb "-" "-") with true. cbv iota. apply Hbody.
  - change (EmptyString +:+ ?s) with s.
    destruct (str_of_N (c / 100)) as [|d ds] eqn:E; [done|].
    simpl in Hds. apply andb_true_iff in Hds as [Hd _].
    rewrite append_cons. unfold two_decimals.
    rewrite (is_digit_not_minus d Hd). exact (Hbody false).
Qed.

(** A finite float is always printed with two decimals. *)
Lemma float_2f_two_decimals (neg : bool) (m : N) (e : Z) :
  two_decimals (float_2f (FFinite neg m e)) = true.
Proof. apply fixed2_two_decimals. Qed.

(** [round_half_even] gives the quotient or the next integer, the latter
    only from the half upwards and, at the half, only after an odd
    quotient. *)
Lemma round_half_even_spec (num den : N) :
  den <> 0%N ->
  exists q r, (num = den * q + r)%N /\ (r < den)%N
    /\ ((round_half_even num den = q /\ (2 * r <= den)%N
         /\ ((2 * r)%N = den -> N.even q = true))
        \/ (round_half_even num den = (q + 1)%N /\ (den <= 2 * r)%N
            /\ ((2 * r)%N = den -> N.even q = false))).
Proof.
  intros Hden. exists (num / den)%N, (num mod den)%N.
  split; [apply N.div_mod; done|]. split; [apply N.mod_lt; done|].
  unfold round_half_even.
  destruct (N.ltb_spec (2 * (num mod den)) den) as [H1|H1];
    [left; split; [reflexivity | split; [lia | intros; lia]]|].
  destruct (N.ltb_spec den (2 * (num mod den))) as [H2|H2];
    [right; split; [reflexivity | split; [lia | intros; lia]]|].
  destruct (N.even (num / den)) eqn:Hev.
  - left. split; [reflexivity | split; [lia | done]].
  - right. split; [reflexivity | split; [lia | done]].
Qed.

(** Rounding a number of 1024 bits to 53 bits, [X] standing for [2^970]:
    the result reaches [2^53] exactly from [2^1024 - 2^970] on. *)
Lemma round_top_binade (X a : N) :
  (0 < X)%N ->
  (4503599627370496 * (2 * X) <= a)%N -> (a < 9007199254740992 * (2 * X))%N ->
  ((a < 18014398509481983 * X)%N ->
     (round_half_even a (2 * X) < 9007199254740992)%N)
  /\ ((18014398509481983 * X <= a)%N ->
        (9007199254740992 <= round_half_even a (2 * X))%N).
Proof.
  intros HX Hlo Hhi.
  destruct (round_half_even_spec a (2 * X)) as (q & r & Ha & Hr & Hm); [lia|].
  assert (Hq : (q < 9007199254740992)%N) by nia.
  split; intros Hthr.
  - destruct Hm as [(-> & _ & _)|(-> & Hhalf & _)]; [done|].
    destruct (N.eq_dec q 9007199254740991%N) as [->|]; [nia | lia].
  - assert (q = 9007199254740991%N) as -> by nia.
    destruct Hm as [(_ & Hhalf & Heven)|(-> & _ & _)]; [|lia].
    assert (Htie : (2 * r = 2 * X)%N) by nia.
    specialize (Heven Htie). discriminate Heven.
Qed.

Lemma round_bounds (a den : N) :
  den <> 0%N ->
  (4503599627370496 * den <= a)%N -> (a < 9007199254740992 * den)%N ->
  (4503599627370496 <= round_half_even a den)%N
  /\ (round_half_even a den <= 9007199254740992)%N.
Proof.
  intros Hden Hlo Hhi.
  destruct (round_half_even_spec a den) as (q & r & Ha & Hr & Hm); [done|].
  assert (4503599627370496 <= q /\ q < 9007199254740992)%N as [? ?] by nia.
  destruct Hm as [(-> & _)|(-> & _)]; lia.
Qed.

Lemma in_float_range_N (z : Z) :
  in_float_range z = (Z.abs_N z <? 18014398509481983 * 2 ^ 970)%N.
Proof.
  unfold in_float_range.
  assert (Hthr : (2 ^ 1024 - 2 ^ 970)%Z = Z.of_N (18014398509481983 * 2 ^ 970))
    by (vm_compute; reflexivity).
  rewrite Hthr, <- N2Z.inj_abs_N.
  destruct (Z.ltb_spec (Z.of_N (Z.abs_N z)) (Z.of_N (18014398509481983 * 2 ^ 970)));
    destruct (N.ltb_spec (Z.abs_N z) (18014398509481983 * 2 ^ 970)); lia.
Qed.

(** [float] of an integer is a float exactly when the integer is within
    the range of a float, and [OverflowError] otherwise. *)
Lemma float_of_int_range (z : Z) :
  if in_float_range z
  then exists m e, float_of_int z = Ret (FFinite (z <? 0)%Z m e)
  else float_of_int z = Raise OverflowError.
Proof.
  rewrite in_float_range_N. unfold float_of_int.
  set (a := Z.abs_N z).
  assert (H1024 : (2 ^ 1024 = 18014398509481984 * 2 ^ 970)%N)
    by (vm_compute; reflexivity).
  assert (H971 : (2 ^ 971 = 2 * 2 ^ 970)%N) by (vm_compute; reflexivity).
  assert (HX : (0 < 2 ^ 970)%N) by (apply N.neq_0_lt_0, N.pow_nonzero; lia).
  assert (Hbelow : forall j, (j <= 970)%N -> (2 ^ j <= 2 ^ 970)%N)
    by (intros j Hj; apply N.pow_le_mono_r; lia).
  assert (Habove : forall j, (972 <= j)%N -> (4 * 2 ^ 970 <= 2 ^ j)%N).
  { intros j Hj. change (4 * 2 ^ 970)%N with (2 ^ 2 * 2 ^ 970)%N.
    rewrite <- N.pow_add_r. apply N.pow_le_mono_r; lia. }
  rewrite H1024. set (X := (2 ^ 970)%N) in *. clearbody X.
  destruct (N.ltb_spec (N.log2 a) 53) as [Hk|Hk].
  - assert (Ha : (a < 9007199254740992)%N).
    { destruct (N.eq_dec a 0%N) as [->|Hne]; [lia|].
      destruct (N.log2_spec a) as [_ Hlt]; [lia|].
      eapply N.lt_le_trans; [exact Hlt|].
      change 9007199254740992%N with (2 ^ 53)%N.
      apply N.pow_le_mono_r; lia. }
    destruct (N.ltb_spec a (18014398509481983 * X)); [eauto | nia].
  - assert (Hpos : (0 < a)%N).
    { destruct (N.eq_dec a 0%N) as [E|]; [|lia]. rewrite E in Hk. simpl in Hk. lia. }
    destruct (N.log2_spec a Hpos) as [Hlo Hhi].
    set (k := N.log2 a) in *. set (den := (2 ^ (k - 52))%N).
    assert (Hden : den <> 0%N) by (apply N.pow_nonzero; lia).
    assert (Hk2 : (2 ^ k = 4503599627370496 * den)%N).
    { unfold den. change 4503599627370496%N with (2 ^ 52)%N.
      rewrite <- N.pow_add_r. f_equal. lia. }
    rewrite N.pow_succ_r' in Hhi. rewrite Hk2 in Hlo, Hhi.
    destruct (round_bounds a den Hden) as [Hm1 Hm2]; [lia | lia |].
    destruct (N.lt_trichotomy k 1023) as [Hlt|[Heq|Hgt]].
    + assert (Hle : (den <= X)%N) by (apply Hbelow; lia).
      destruct (N.leb_spec (18014398509481984 * X) (round_half_even a den * den));
        [nia|].
      destruct (N.ltb_spec a (18014398509481983 * X)); [eauto | nia].
    + assert (Hd : den = (2 * X)%N).
      { unfold den. rewrite Heq. exact H971. }
      rewrite Hd in *.
      destruct (round_top_binade X a HX) as [Hin Hout]; [lia | lia |].
      destruct (N.ltb_spec a (18014398509481983 * X)) as [Ha|Ha].
      * specialize (Hin Ha).
        destruct (N.leb_spec (18014398509481984 * X)
                    (round_half_even a (2 * X) * (2 * X))); [nia | eauto].
      * specialize (Hout Ha).
        destruct (N.leb_spec (18014398509481984 * X)
                    (round_half_even a (2 * X) * (2 * X))); [done | nia].
    + assert (Hge : (4 * X <= den)%N) by (apply Habove; lia).
      destruct (N.leb_spec (18014398509481984 * X) (round_half_even a den * den));
        [|nia].
      destruct (N.ltb_spec a (18014398509481983 * X)); [nia | done].
Qed.

(** An amount that [%0.2f] writes as a number is written with two
    decimals; an integer beyond the range of a float is refused. *)
Lemma percent_02f_serializable (v : pyval) :
  serializable_amount v = true ->
  exists s, percent_02f v = Ret s /\ two_decimals s = true.
Proof.
  intros Hv. destruct v as [|b|z|x|t]; try discriminate Hv; simpl.
  - pose proof (float_of_int_range (if b then 1 else 0)%Z) as Hr.
    assert (Hin : in_float_range (if b then 1 else 0)%Z = true)
      by (destruct b; vm_compute; reflexivity).
    rewrite Hin in Hr. destruct Hr as (m & e & ->). simpl.
    eexists. split; [reflexivity | apply fixed2_two_decimals].
  - pose proof (float_of_int_range z) as Hr. simpl in Hv. rewrite Hv in Hr.
    destruct Hr as (m & e & ->). simpl.
    eexists. split; [reflexivity | apply fixed2_two_decimals].
  - destruct x; try discriminate Hv.
    eexists. split; [reflexivity | apply fixed2_two_decimals].
Qed.

Lemma percent_02f_out_of_range (z : Z) :
  in_float_range z = false -> percent_02f (VInt z) = Raise TypeError.
Proof.
  intros Hz. pose proof (float_of_int_range z) as Hr. rewrite Hz in Hr.
  simpl. by rewrite Hr.
Qed.

(** [cents] is exact for a non-negative exponent, and otherwise it is a
    nearest integer to the exact number of hundredths, the even one at a
    tie. *)
Lemma cents_exact (m : N) (e : Z) :
  (0 <= e)%Z -> cents m e = (m * 2 ^ Z.to_N e * 100)%N.
Proof. intros He. destruct e; [reflexivity | reflexivity | lia]. Qed.

Lemma cents_nearest (m : N) (p : positive) :
  let den := (2 ^ N.pos p)%N in
  let c := cents m (Z.neg p) in
  (2 * (m * 100) <= 2 * c * den + den)%N /\ (2 * c * den <= 2 * (m * 100) + den)%N
  /\ ((2 * (m * 100) = 2 * c * den + den \/ 2 * c * den = 2 * (m * 100) + den)%N ->
      N.even c = true).
Proof.
  intros den c. subst c. unfold cents. fold den.
  assert (Hden : (den <> 0)%N) by (apply N.pow_nonzero; lia).
  pose proof (N.div_mod (m * 100) den Hden) as Hdm.
  pose proof (N.mod_lt (m * 100) den Hden) as Hlt.
  set (q := (m * 100 / den)%N) in *. set (r := ((m * 100) mod den)%N) in *.
  destruct (N.ltb_spec (2 * r) den) as [H1|H1];
    [|destruct (N.ltb_spec den (2 * r)) as [H2|H2]].
  - repeat split; nia.
  - repeat split; nia.
  - assert (Htie : (2 * r = den)%N) by lia.
    destruct (N.even q) eqn:Hev.
    + split; [nia | split; [nia | done]].
    + split; [nia | split; [nia | intros _]].
      rewrite N.add_1_r, N.even_succ, <- N.negb_even, Hev. done.
Qed.

(** ** Further properties of the fragment *)

Lemma length_append (s t : string) :
  String.length (s +:+ t) = String.length s + String.length t.
Proof.
  induction s as [|c s IH]; [reflexivity|].
  rewrite append_cons. simpl. by rewrite IH.
Qed.

Lemma length_spaces (n : nat) : String.length (spaces n) = n.
Proof. induction n as [|n IH]; simpl; [done | by rewrite IH]. Qed.

Lemma length_rjust (w : nat) (s : string) :
  String.length (rjust w s) = max w (String.length s).
Proof. unfold rjust. rewrite length_append, length_spaces. lia. Qed.

Lemma length_ljust (w : nat) (s : string) :
  String.length (ljust w s) = max w (String.length s).
Proof. unfold ljust. rewrite length_append, length_spaces. lia. Qed.

Lemma lower_length (s : string) : String.length (lower s) = String.length s.
Proof. induction s as [|c s IH]; simpl; [done | by rewrite IH]. Qed.

(** A template without braces is its own result, whatever the
    arguments. *)
Lemma format_brace_free (t : string) (pos : list string)
    (kw : list (string * string)) :
  brace_free t = true -> format t pos kw = Ret t.
Proof.
  unfold format, brace_free. induction t as [|c t IH]; [reflexivity|].
  simpl. rewrite negb_orb. intros [Hc Ht]%andb_true_iff.
  unfold is_brace in Hc. rewrite negb_orb in Hc.
  apply andb_true_iff in Hc as [Ho Hcl].
  apply negb_true_iff in Ho, Hcl. rewrite Ho, Hcl, (IH Ht). reflexivity.
Qed.

Lemma digit_inj (j k : N) : (j < 10)%N -> (k < 10)%N -> digit j = digit k -> j = k.
Proof.
  intros Hj Hk H. apply (f_equal N_of_ascii) in H. unfold digit in H.
  rewrite !N_ascii_embedding in H by lia. lia.
Qed.

Lemma two_digits_inj (a b : N) :
  (a < 100)%N -> (b < 100)%N -> two_digits a = two_digits b -> a = b.
Proof.
  intros Ha Hb H. unfold two_digits in H. injection H as H1 H2.
  apply digit_inj in H1, H2;
    try (apply N.mod_lt; lia);
    try (apply N.Div0.div_lt_upper_bound; lia).
  rewrite (N.div_mod a 10), (N.div_mod b 10) by lia. by rewrite H1, H2.
Qed.

(** The decimal text of a natural number can be read back. *)
Lemma str_of_N_read (n : N) :
  exists d, NilZero.uint_of_string (str_of_N n) = Some d /\ N.of_uint d = n.
Proof.
  unfold str_of_N. pose proof (DecimalN.Unsigned.of_to n) as Hn.
  destruct (N.to_uint n) as [| | | | | | | | | |] eqn:E;
    [exists Decimal.zero; split; [apply NilZero.usu_nil | exact Hn] | ..];
    (eexists; split; [apply NilZero.usu; discriminate | exact Hn]).
Qed.

Lemma str_of_N_inj (a b : N) : str_of_N a = str_of_N b -> a = b.
Proof.
  intros H. destruct (str_of_N_read a) as (da & Ha & <-).
  destruct (str_of_N_read b) as (db & Hb & <-).
  rewrite H in Ha. congruence.
Qed.

Lemma digits_point_split (ds1 ds2 x y : string) :
  all_digits ds1 = true -> all_digits ds2 = true ->
  ds1 +:+ String "." x = ds2 +:+ String "." y -> ds1 = ds2 /\ x = y.
Proof.
  revert ds2. induction ds1 as [|c ds1 IH]; intros [|c2 ds2] H1 H2 H.
  - by injection H.
  - rewrite append_cons in H. injection H as <- _. discriminate H2.
  - rewrite append_cons in H. injection H as -> _. discriminate H1.
  - rewrite !append_cons in H. injection H as -> H.
    simpl in H1, H2. apply andb_true_iff in H1 as [_ H1].
    apply andb_true_iff in H2 as [_ H2].
    destruct (IH ds2 H1 H2 H) as [-> ->]. done.
Qed.

Lemma str_of_N_not_minus (n : N) (s t : string) :
  String "-" s <> str_of_N n +:+ t.
Proof.
  destruct (str_of_N_digits n) as [Hd Hne].
  destruct (str_of_N n) as [|c ds]; [done|].
  rewrite append_cons. intros [= <- _]. discriminate Hd.
Qed.

(** The text written for a sign and a number of hundredths determines
    both. *)
Lemma fixed2_inj (n1 n2 : bool) (c1 c2 : N) :
  fixed2 n1 c1 = fixed2 n2 c2 -> n1 = n2 /\ c1 = c2.
Proof.
  unfold fixed2. intros H.
  assert (Hbody : forall a b : N,
    str_of_N (a / 100) +:+ "." +:+ two_digits (a mod 100) =
    str_of_N (b / 100) +:+ "." +:+ two_digits (b mod 100) -> a = b).
  { intros a b Hab.
    apply digits_point_split in Hab as [Hq Hr];
      try apply str_of_N_digits.
    apply str_of_N_inj in Hq.
    apply two_digits_inj in Hr; try (apply N.mod_lt; lia).
    rewrite (N.div_mod a 100), (N.div_mod b 100) by lia. by rewrite Hq, Hr. }
  destruct n1, n2; unfold sign_prefix in H.
  - rewrite !append_cons in H. injection H as H. split; [done | by apply Hbody].
  - rewrite append_cons in H. by apply str_of_N_not_minus in H.
  - rewrite append_cons in H. symmetry in H. by apply str_of_N_not_minus in H.
  - split; [done | by apply Hbody].
Qed.

(** X1.  The text that [%0.2f] writes for a finite float names one sign and
    one number of hundredths: two finite floats are written alike exactly
    when they have the same sign and round to the same hundredths. *)
Theorem float_2f_text_determines_hundredths (n1 n2 : bool) (m1 m2 : N) (e1 e2 : Z) :
  float_2f (FFinite n1 m1 e1) = float_2f (FFinite n2 m2 e2) <->
  n1 = n2 /\ cents m1 e1 = cents m2 e2.
Proof.
  split; [apply fixed2_inj|]. intros [-> Hc]. simpl. by rewrite Hc.
Qed.

(** X2.  For a finite float [m * 2^-p] the hundredths written by [%0.2f] are
    within half a unit of the exact value [100 * m / 2^p], and even when
    the exact value lies half-way between two integers. *)
Theorem float_2f_nearest_hundredth (neg : bool) (m : N) (p : positive) :
  exists c,
    float_2f (FFinite neg m (Z.neg p)) = fixed2 neg c
    /\ (2 * (m * 100) <= 2 * c * 2 ^ N.pos p + 2 ^ N.pos p)%N
    /\ (2 * c * 2 ^ N.pos p <= 2 * (m * 100) + 2 ^ N.pos p)%N
    /\ ((2 * (m * 100) = 2 * c * 2 ^ N.pos p + 2 ^ N.pos p
         \/ 2 * c * 2 ^ N.pos p = 2 * (m * 100) + 2 ^ N.pos p)%N ->
        N.even c = true).
Proof. exists (cents m (Z.neg p)). split; [reflexivity | apply cents_nearest]. Qed.

End PySpec.

(* ===================================================================== *)
(** * Properties of the facade *)
(* ===================================================================== *)

Module ApiSpec.
Import Py Api.

(** [str.format] on the question template puts the three arguments in
    their places. *)
Lemma format_question (base page : string) (height : Z) :
  format question_template [base; page; str_of_Z height] [] =
  Ret (external_question base page height).
Proof. reflexivity. Qed.

(** What a run of [createhit] does, whatever the client has been asked
    before: nothing when the reward cannot be formatted, and otherwise
    one [create_hit] call with [createhit_request]. *)
Lemma createhit_run (self : Server) (title description : pyval) (page : string)
    (amount duration lifetime keywords autoapprove : pyval) (height : Z)
    (minapprovedpercent minapprovedamount countrycode : pyval)
    (log : list remote_call) :
  createhit self title description page amount duration lifetime keywords
    autoapprove height minapprovedpercent minapprovedamount countrycode log =
  match percent_02f amount with
  | Ret reward =>
      let c := createhit_request self title description page reward duration
                 lifetime keywords autoapprove height in
      (log ++ [c], client self log c)
  | Raise e => (log, Raise e)
  | Outside => (log, Outside)
  end.
Proof.
  unfold createhit, mbind, M_bind, lift.
  destruct (percent_02f amount) as [reward|e|]; reflexivity.
Qed.

Lemma createhit_calls (self : Server) (title description : pyval) (page : string)
    (amount duration lifetime keywords autoapprove : pyval) (height : Z)
    (minapprovedpercent minapprovedamount countrycode : pyval) :
  calls (createhit self title description page amount duration lifetime keywords
           autoapprove height minapprovedpercent minapprovedamount countrycode) =
  match percent_02f amount with
  | Ret reward => [createhit_request self title description page reward duration
                     lifetime keywords autoapprove height]
  | _ => []
  end.
Proof.
  unfold calls. rewrite createhit_run.
  destruct (percent_02f amount); reflexivity.
Qed.

Lemma createhit_request_dom (self : Server) (title description : pyval)
    (page reward : string) (duration lifetime keywords autoapprove : pyval)
    (height : Z) :
  dom (kwargs (createhit_request self title description page reward duration
                 lifetime keywords autoapprove height)) = createhit_keys.
Proof.
  unfold createhit_request, createhit_keys. cbn [kwargs list_to_map foldr uncurry fst snd].
  rewrite !dom_insert_L, dom_empty_L. set_solver.
Qed.

(** The local list [qualifications] holds, in the order approval percent,
    approved count, country, one filter for each threshold that is true. *)
Lemma createhit_qualifications_spec (p a c : pyval) :
  createhit_qualifications p a c =
    (if truthy p then [ {| QualificationTypeId := "000000000000000000L0";
                           Comparator := "GreaterThanOrEqualTo";
                           IntegerValue := p |} ] else [])
    ++ (if truthy a then [ {| QualificationTypeId := "00000000000000000040";
                              Comparator := "GreaterThanOrEqualTo";
                              IntegerValue := a |} ] else [])
    ++ (if truthy c then [ {| QualificationTypeId := "00000000000000000071";
                              Comparator := "EqualTo";
                              IntegerValue := c |} ] else []).
Proof.
  unfold createhit_qualifications.
  destruct (truthy p), (truthy a), (truthy c); reflexivity.
Qed.

Lemma createhit_qualifications_zero (p c : pyval) :
  createhit_qualifications p (VInt 0) c = createhit_qualifications p VNone c.
Proof. reflexivity. Qed.

(** C1 (defect of the code).  [bonus] formats the amount with two decimals
    but never reaches the client's bonus operation [send_bonus]: when the
    amount can be formatted its one and only client call is
    [reject_assignment], with the worker, the assignment, the formatted
    amount and the feedback as keyword arguments; otherwise it makes no
    call at all. *)
Theorem bonus_calls_reject_assignment (self : Server)
    (workerid assignmentid amount feedback : pyval) :
  calls (bonus self workerid assignmentid amount feedback) =
    match percent_02f amount with
    | Ret bonusamount =>
        [RemoteCall reject_assignment
           (list_to_map [ ("WorkerId", AVal workerid);
                          ("AssignmentId", AVal assignmentid);
                          ("BonusAmount", AVal (VStr bonusamount));
                          ("Reason", AVal feedback) ])]
    | _ => []
    end
  /\ Forall (fun c => op c = reject_assignment /\ op c <> send_bonus)
            (calls (bonus self workerid assignmentid amount feedback)).
Proof.
  assert (Hcalls : calls (bonus self workerid assignmentid amount feedback) =
    match percent_02f amount with
    | Ret bonusamount =>
        [RemoteCall reject_assignment
           (list_to_map [ ("WorkerId", AVal workerid);
                          ("AssignmentId", AVal assignmentid);
                          ("BonusAmount", AVal (VStr bonusamount));
                          ("Reason", AVal feedback) ])]
    | _ => []
    end).
  { unfold calls, bonus, mbind, M_bind, lift.
    destruct (percent_02f amount); reflexivity. }
  split; [exact Hcalls|].
  rewrite Hcalls. destruct (percent_02f amount); repeat constructor; done.
Qed.

(** C2 (defect of the code).  The list of qualification filters is built
    and then left out of the request: [createhit] run with any three
    thresholds is [createhit] run with none, and every request it hands
    to [create_hit] has exactly the eight keys [createhit_keys], none of
    which carries a qualification filter. *)
Theorem createhit_drops_qualifications (self : Server) (title description : pyval)
    (page : string) (amount duration lifetime keywords autoapprove : pyval)
    (height : Z) (minapprovedpercent minapprovedamount countrycode : pyval) :
  createhit self title description page amount duration lifetime keywords
    autoapprove height minapprovedpercent minapprovedamount countrycode =
  createhit self title description page amount duration lifetime keywords
    autoapprove height VNone VNone VNone
  /\ Forall (fun c => op c = create_hit /\ dom (kwargs c) = createhit_keys)
       (calls (createhit self title description page amount duration lifetime
                 keywords autoapprove height minapprovedpercent
                 minapprovedamount countrycode)).
Proof.
  split; [reflexivity|].
  rewrite createhit_calls. destruct (percent_02f amount); constructor.
  - split; [reflexivity | apply createhit_request_dom].
  - constructor.
Qed.

(** C5.  [purge] always fails with its refusal and leaves the log of
    client calls as it found it: no remote operation is invoked. *)
Theorem purge_refuses (self : Server) (log : list remote_call) :
  purge self log = (log, Raise OperationRefused).
Proof. reflexivity. Qed.

(** C6.  Each read of the statistics family fails with the
    unsupported-operation error and leaves the log of client calls as it
    found it. *)
Theorem statistics_unsupported (self : Server) (log : list remote_call) :
  rewardpayout self log = (log, Raise UnsupportedOperationError)
  /\ approvalpercentage self log = (log, Raise UnsupportedOperationError)
  /\ feepayout self log = (log, Raise UnsupportedOperationError)
  /\ numcreated self log = (log, Raise UnsupportedOperationError).
Proof. repeat split. Qed.

(** C7.  For every base URL, page and frame height, formatting the
    question template gives the [ExternalQuestion] document around
    [base/page] and the height; every request of [createhit] carries that
    document under [Question], and a finite float amount leads to exactly
    one such request.  For [https://host], [task/1] and 650 the document
    is the literal text below. *)
Theorem createhit_question (self : Server) (title description : pyval)
    (page : string) (amount duration lifetime keywords autoapprove : pyval)
    (height : Z) (minapprovedpercent minapprovedamount countrycode : pyval) :
  format question_template [localhost self; page; str_of_Z height] [] =
    Ret (external_question (localhost self) page height)
  /\ Forall (fun c => op c = create_hit /\
               kwargs c !! "Question" =
               Some (AVal (VStr (external_question (localhost self) page height))))
       (calls (createhit self title description page amount duration lifetime
                 keywords autoapprove height minapprovedpercent
                 minapprovedamount countrycode))
  /\ (forall neg m e,
        calls (createhit self title description page (VFloat (FFinite neg m e))
                 duration lifetime keywords autoapprove height
                 minapprovedpercent minapprovedamount countrycode) =
        [createhit_request self title description page (float_2f (FFinite neg m e))
           duration lifetime keywords autoapprove height])
  /\ external_question "https://host" "task/1" 650 =
     "<ExternalQuestion xmlns=" +:+ dquote
     +:+ "http://mechanicalturk.amazonaws.com/AWSMechanicalTurkDataSchemas/2006-07-14/ExternalQuestion.xsd"
     +:+ dquote
     +:+ "><ExternalURL>https://host/task/1</ExternalURL><FrameHeight>650</FrameHeight></ExternalQuestion>".
Proof.
  split; [apply format_question|]. split; [|split; [|reflexivity]].
  - rewrite createhit_calls. destruct (percent_02f amount); constructor.
    + split; [reflexivity|]. unfold createhit_request. cbn [kwargs].
      apply lookup_insert_eq.
    + constructor.
  - intros neg m e. rewrite createhit_calls. reflexivity.
Qed.

Lemma createhit_request_reward (self : Server) (title description : pyval)
    (page reward : string) (duration lifetime keywords autoapprove : pyval)
    (height : Z) :
  kwargs (createhit_request self title description page reward duration
            lifetime keywords autoapprove height) !! "Reward" =
  Some (AVal (VStr reward)).
Proof.
  unfold createhit_request. cbn [kwargs list_to_map foldr uncurry fst snd].
  by simplify_map_eq.
Qed.

(** C8, as stated, fails: an infinite amount is transmitted as [inf],
    which has no decimals, and for the integer [10^400], which no float
    can hold, nothing is transmitted at all: [createhit] and [bonus] stop
    with an exception before the client is called. *)
Lemma infinite_amount_not_two_decimals :
  percent_02f (VFloat (FInf false)) = Ret "inf"
  /\ two_decimals "inf" = false
  /\ (exists r,
        calls (createhit mock (VStr "t") (VStr "d") "task/1" (VFloat (FInf false))
                 (VInt 600) (VInt 1209600) (VStr EmptyString) (VInt 604800) 650
                 VNone VNone VNone) = [r]
        /\ op r = create_hit
        /\ kwargs r !! "Reward" = Some (AVal (VStr "inf")))
  /\ exists e,
       createhit mock (VStr "t") (VStr "d") "task/1" (VInt (10 ^ 400))
         (VInt 600) (VInt 1209600) (VStr EmptyString) (VInt 604800) 650
         VNone VNone VNone [] = ([], Raise e)
       /\ bonus mock (VStr "W1") (VStr "A1") (VInt (10 ^ 400)) (VStr "thanks") [] =
          ([], Raise e).
Proof.
  split; [reflexivity|]. split; [reflexivity|]. split.
  - eexists. split; [rewrite createhit_calls; reflexivity|].
    split; [reflexivity | apply createhit_request_reward].
  - assert (H : percent_02f (VInt (10 ^ 400)) = Raise TypeError)
      by (apply PySpec.percent_02f_out_of_range; vm_compute; reflexivity).
    exists TypeError. split.
    + rewrite createhit_run, H. reflexivity.
    + unfold bonus, mbind, M_bind, lift. rewrite H. reflexivity.
Qed.

(** C8 (as amended).  Every amount that is a finite float, a boolean or an
    integer within the range of a float (below [2^1024 - 2^970] in absolute
    value) is written with exactly two decimal digits, an integer of more
    than 53 bits after rounding to the nearest float; this text is what
    [createhit] transmits as [Reward] and [bonus] as [BonusAmount].  The
    float nearest to 0.1 is written [0.10], the integer 1 and the float 1.0
    [1.00], the integer [2^53 + 1] as the float [2^53].  An integer beyond
    the range of a float stops both operations with an exception before
    the client is called, and an infinite float or a NaN is transmitted as
    [inf], [-inf] or [nan]. *)
Theorem finite_amounts_two_decimals (self : Server) (amount : pyval)
    (title description : pyval) (page : string)
    (duration lifetime keywords autoapprove : pyval) (height : Z)
    (minapprovedpercent minapprovedamount countrycode : pyval)
    (workerid assignmentid feedback : pyval) :
  serializable_amount amount = true ->
  (exists s,
     percent_02f amount = Ret s
     /\ two_decimals s = true
     /\ (exists r,
           calls (createhit self title description page amount duration lifetime
                    keywords autoapprove height minapprovedpercent
                    minapprovedamount countrycode) = [r]
           /\ op r = create_hit
           /\ kwargs r !! "Reward" = Some (AVal (VStr s)))
     /\ (exists r,
           calls (bonus self workerid assignmentid amount feedback) = [r]
           /\ kwargs r !! "BonusAmount" = Some (AVal (VStr s))))
  /\ percent_02f (VFloat (FFinite false 7205759403792794 (-56))) = Ret "0.10"
  /\ percent_02f (VInt 1) = Ret "1.00"
  /\ percent_02f (VFloat (FFinite false 1 0)) = Ret "1.00"
  /\ percent_02f (VInt (2 ^ 53 + 1)) = Ret "9007199254740992.00"
  /\ (forall z log,
        in_float_range z = false ->
        exists e,
          createhit self title description page (VInt z) duration lifetime
            keywords autoapprove height minapprovedpercent minapprovedamount
            countrycode log = (log, Raise e)
          /\ bonus self workerid assignmentid (VInt z) feedback log =
             (log, Raise e))
  /\ (forall neg,
        percent_02f (VFloat (FInf neg)) = Ret (sign_prefix neg +:+ "inf")
        /\ two_decimals (sign_prefix neg +:+ "inf") = false)
  /\ percent_02f (VFloat FNan) = Ret "nan"
  /\ two_decimals "nan" = false.
Proof.
  intros Hamount. split.
  { destruct (PySpec.percent_02f_serializable amount Hamount) as (s & Hs & Htwo).
    exists s. split; [exact Hs|]. split; [exact Htwo|]. split.
    - eexists. split; [rewrite createhit_calls, Hs; reflexivity|].
      split; [reflexivity | apply createhit_request_reward].
    - eexists. split.
      + unfold calls, bonus, mbind, M_bind, lift. rewrite Hs. reflexivity.
      + cbn [kwargs list_to_map foldr uncurry fst snd]. by simplify_map_eq. }
  split; [vm_compute; reflexivity|]. split; [vm_compute; reflexivity|].
  split; [vm_compute; reflexivity|]. split; [vm_compute; reflexivity|].
  split.
  { intros z log Hz. exists TypeError.
    pose proof (PySpec.percent_02f_out_of_range z Hz) as H. split.
    - rewrite createhit_run, H. reflexivity.
    - unfold bonus, mbind, M_bind, lift. rewrite H. reflexivity. }
  split; [|split; reflexivity].
  intros neg. split; [reflexivity | by destruct neg].
Qed.

(** The theorem at the amount 0.1, the float [7205759403792794 * 2^-56]. *)
Lemma finite_amounts_two_decimals_witness :
  serializable_amount (VFloat (FFinite false 7205759403792794 (-56))) = true
  /\ valid_binary64 (FFinite false 7205759403792794 (-56)) = true
  /\ exists s,
       percent_02f (VFloat (FFinite false 7205759403792794 (-56))) = Ret s
       /\ two_decimals s = true
       /\ (exists r,
             calls (createhit mock (VStr "t") (VStr "d") "task/1"
                      (VFloat (FFinite false 7205759403792794 (-56)))
                      (VInt 600) (VInt 1209600) (VStr EmptyString) (VInt 604800)
                      650 VNone VNone VNone) = [r]
             /\ op r = create_hit
             /\ kwargs r !! "Reward" = Some (AVal (VStr s)))
       /\ (exists r,
             calls (bonus mock (VStr "W1") (VStr "A1")
                      (VFloat (FFinite false 7205759403792794 (-56)))
                      (VStr "thanks")) = [r]
             /\ kwargs r !! "BonusAmount" = Some (AVal (VStr s))).
Proof.
  split; [reflexivity|]. split; [reflexivity|].
  exact (proj1 (finite_amounts_two_decimals mock
                  (VFloat (FFinite false 7205759403792794 (-56)))
                  (VStr "t") (VStr "d") "task/1" (VInt 600) (VInt 1209600)
                  (VStr EmptyString) (VInt 604800) 650 VNone VNone VNone
                  (VStr "W1") (VStr "A1") (VStr "thanks") eq_refl)).
Defined.

(** ** Further properties of the facade *)

Lemma single_shot_invoke (self : Server) (o : remote_op) (kw : gmap string arg) :
  single_shot (invoke self o kw).
Proof. intros log. exists [RemoteCall o kw]. split; [reflexivity | simpl; lia]. Qed.

Lemma single_shot_lift {A} (r : result A) : single_shot (lift r).
Proof. intros log. exists []. split; [by rewrite app_nil_r | simpl; lia]. Qed.

Lemma single_shot_format {A B} (r : result A) (k : A -> M B) :
  (forall a, single_shot (k a)) -> single_shot (lift r ≫= k).
Proof.
  intros Hk log. unfold mbind, M_bind, lift. destruct r as [a|e|].
  - apply Hk.
  - exists []. split; [by rewrite app_nil_r | simpl; lia].
  - exists []. split; [by rewrite app_nil_r | simpl; lia].
Qed.

(** X3.  No operation of the facade retries or calls the client twice: each
    one keeps the calls already made and adds at most one. *)
Theorem facade_single_shot (self : Server)
    (title description : pyval) (page : string)
    (amount duration lifetime keywords autoapprove : pyval) (height : Z)
    (minapprovedpercent minapprovedamount countrycode : pyval)
    (now hitid assignmentid workerid feedback reason subject message : pyval) :
  single_shot (createhit self title description page amount duration lifetime
                 keywords autoapprove height minapprovedpercent
                 minapprovedamount countrycode)
  /\ single_shot (disable self now hitid)
  /\ single_shot (purge self)
  /\ single_shot (accept self assignmentid feedback)
  /\ single_shot (reject self assignmentid feedback)
  /\ single_shot (bonus self workerid assignmentid amount feedback)
  /\ single_shot (block self workerid reason)
  /\ single_shot (unblock self workerid reason)
  /\ single_shot (email self workerid subject message)
  /\ single_shot (balance self)
  /\ single_shot (rewardpayout self)
  /\ single_shot (approvalpercentage self)
  /\ single_shot (feepayout self)
  /\ single_shot (numcreated self).
Proof.
  repeat split;
    try apply single_shot_invoke;
    try apply (single_shot_lift (A := response));
    try apply (single_shot_lift (A := pyval)).
  - intros log. rewrite createhit_run. destruct (percent_02f amount).
    + eexists [_]. split; [reflexivity | simpl; lia].
    + exists []. split; [by rewrite app_nil_r | simpl; lia].
    + exists []. split; [by rewrite app_nil_r | simpl; lia].
  - apply single_shot_format. intros a. apply single_shot_invoke.
  - intros log. unfold balance, mbind, M_bind, invoke.
    destruct (client self log _) as [resp|e|];
      [destruct (resp !! "AvailableBalance")|..];
      (eexists [_]; split; [reflexivity | simpl; lia]).
Qed.

(** X4.  An amount that is not a number stops [createhit] and [bonus] with a
    [TypeError] before the client is called. *)
Theorem nonnumeric_amount_TypeError (self : Server) (text : string)
    (title description : pyval) (page : string)
    (duration lifetime keywords autoapprove : pyval) (height : Z)
    (minapprovedpercent minapprovedamount countrycode : pyval)
    (workerid assignmentid feedback : pyval) (log : list remote_call) :
  createhit self title description page VNone duration lifetime keywords
    autoapprove height minapprovedpercent minapprovedamount countrycode log =
    (log, Raise TypeError)
  /\ createhit self title description page (VStr text) duration lifetime keywords
       autoapprove height minapprovedpercent minapprovedamount countrycode log =
     (log, Raise TypeError)
  /\ bonus self workerid assignmentid VNone feedback log = (log, Raise TypeError)
  /\ bonus self workerid assignmentid (VStr text) feedback log =
     (log, Raise TypeError).
Proof. repeat split. Qed.

(** X5.  What the client answers to the one call of [createhit] is what
    [createhit] answers: a failure of the client reaches the caller as it
    is, after that single call. *)
Theorem createhit_surfaces_client_error (self : Server) (title description : pyval)
    (page : string) (amount duration lifetime keywords autoapprove : pyval)
    (height : Z) (minapprovedpercent minapprovedamount countrycode : pyval)
    (log : list remote_call) (reward : string) (e : exn) :
  percent_02f amount = Ret reward ->
  client self log (createhit_request self title description page reward duration
                     lifetime keywords autoapprove height) = Raise e ->
  createhit self title description page amount duration lifetime keywords
    autoapprove height minapprovedpercent minapprovedamount countrycode log =
  (log ++ [createhit_request self title description page reward duration
             lifetime keywords autoapprove height], Raise e).
Proof. intros Hr He. rewrite createhit_run, Hr. cbv zeta. by rewrite He. Qed.

Lemma createhit_surfaces_client_error_witness :
  percent_02f (VInt 1) = Ret "1.00"
  /\ createhit refusing (VStr "t") (VStr "d") "task/1" (VInt 1) (VInt 600)
       (VInt 1209600) (VStr EmptyString) (VInt 604800) 650 VNone VNone VNone [] =
     ([createhit_request refusing (VStr "t") (VStr "d") "task/1" "1.00" (VInt 600)
         (VInt 1209600) (VStr EmptyString) (VInt 604800) 650],
      Raise (ClientError "AccessDenied")).
Proof.
  split; [reflexivity|].
  apply (createhit_surfaces_client_error refusing (VStr "t") (VStr "d") "task/1"
           (VInt 1) (VInt 600) (VInt 1209600) (VStr EmptyString) (VInt 604800) 650
           VNone VNone VNone [] "1.00" (ClientError "AccessDenied"));
    reflexivity.
Defined.

(** X6.  [balance] asks the client once, without arguments, and fails with
    [KeyError] when the answer has no [AvailableBalance]. *)
Theorem balance_missing_key (self : Server) (log : list remote_call)
    (resp : response) :
  client self log (RemoteCall get_account_balance ∅) = Ret resp ->
  resp !! "AvailableBalance" = None ->
  balance self log =
  (log ++ [RemoteCall get_account_balance ∅], Raise (KeyError "AvailableBalance")).
Proof.
  intros Hc Hk. unfold balance, mbind, M_bind, invoke. cbv zeta.
  by rewrite Hc, Hk.
Qed.

Lemma balance_missing_key_witness :
  client mock [] (RemoteCall get_account_balance ∅) = Ret ∅
  /\ balance mock [] =
     ([RemoteCall get_account_balance ∅], Raise (KeyError "AvailableBalance")).
Proof.
  split; [reflexivity|].
  apply (balance_missing_key mock [] ∅); reflexivity.
Defined.

(** X7.  The list [qualifications] built by [createhit] has one filter for
    each threshold that is true, in the order approval percent, approved
    count, country; each filter carries its threshold, and a threshold of
    zero, like [None], gives none. *)
Theorem qualifications_follow_thresholds (p a c : pyval) :
  map QualificationTypeId (createhit_qualifications p a c) =
    (if truthy p then ["000000000000000000L0"] else [])
    ++ (if truthy a then ["00000000000000000040"] else [])
    ++ (if truthy c then ["00000000000000000071"] else [])
  /\ map IntegerValue (createhit_qualifications p a c) =
       filter (fun v => truthy v = true) [p; a; c]
  /\ createhit_qualifications (VInt 0) (VInt 0) (VInt 0) = []
  /\ createhit_qualifications p (VInt 0) c = createhit_qualifications p VNone c.
Proof.
  split; [|split; [|split; reflexivity]].
  - rewrite createhit_qualifications_spec.
    destruct (truthy p), (truthy a), (truthy c); reflexivity.
  - rewrite createhit_qualifications_spec, !filter_cons, filter_nil.
    destruct (truthy p) eqn:Hp, (truthy a) eqn:Ha, (truthy c) eqn:Hc; simpl;
      repeat case_decide; try congruence; reflexivity.
Qed.

End ApiSpec.

(* ===================================================================== *)
(** * Properties of the command line *)
(* ===================================================================== *)

Module CliSpec.
Import Py Cli.

Lemma format_help_line (action help : string) :
  format "{0:>15}   {1:<50}" [action; help] [] =
  Ret (rjust 15 action +:+ "   " +:+ ljust 50 help).
Proof.
  transitivity (Ret (A := string)
    (rjust 15 action +:+ "   " +:+ ljust 50 help +:+ EmptyString)).
  - reflexivity.
  - by rewrite PySpec.append_empty_r.
Qed.

Lemma format_unknown_action (name : string) :
  format "Error: Unknown action {0}" [name] [] =
  Ret ("Error: Unknown action " +:+ name).
Proof.
  transitivity (Ret (A := string)
    ("Error: Unknown action " +:+ name +:+ EmptyString)).
  - reflexivity.
  - by rewrite PySpec.append_empty_r.
Qed.

Lemma help_loop_lines (items : list (string * (callable * string))) :
  help_loop items = (map help_line items, Ret tt).
Proof.
  induction items as [|[action [f help]] items IH]; [reflexivity|].
  cbn [help_loop]. rewrite format_help_line.
  unfold mbind, run_bind, lift_run, print, emit. rewrite IH. reflexivity.
Qed.

(** [main] with a first token: the token is looked up as it is. *)
Lemma main_dispatch (handlers : registry) (sys_argv : list string)
    (name : string) (rest : list string) :
  main handlers sys_argv (Some (name :: rest)) =
  match handlers !! name with
  | Some (h, _) => run_handler h (name :: rest)
  | None => unknown_action name
  end.
Proof.
  unfold main. cbn [lookup list_lookup].
  destruct (handlers !! name) as [[h help]|]; [reflexivity|].
  rewrite format_unknown_action. reflexivity.
Qed.

Lemma main_no_token (handlers : registry) (sys_argv : list string) :
  main handlers sys_argv (Some []) = (map help_line (sorted_items handlers), Ret tt).
Proof. unfold main, help. cbn [lookup list_lookup]. apply help_loop_lines. Qed.

#[local] Instance item_le_trans : Transitive item_le.
Proof. intros x y z. unfold item_le. apply transitivity. Qed.

#[local] Instance item_le_total : Total item_le.
Proof. intros x y. unfold item_le. apply total, _. Qed.

Lemma sorted_items_keys_NoDup (handlers : registry) : NoDup (sorted_items handlers).*1.
Proof.
  unfold sorted_items. rewrite merge_sort_Permutation.
  apply NoDup_fst_map_to_list.
Qed.

(** The registration made by [handler]. *)
Lemma handler_registry (help : string) (inname : option string) (func : callable)
    (handlers : registry) :
  (handler help inname func handlers).1 =
  <[command_name inname func := (func, help)]> handlers.
Proof. unfold handler, command_name. by destruct inname. Qed.

(** C9.  Without a token [main] prints one line for each entry of
    [handlers], name and help text, in the order of the names as byte
    strings, and returns; with a first token that is not a key of
    [handlers] it prints the diagnostic for that token, returns without an
    exception and calls no handler. *)
Theorem main_help_and_unknown (handlers : registry) (sys_argv : list string)
    (name : string) (rest : list string) :
  handlers !! name = None ->
  main handlers sys_argv (Some []) = (map help_line (sorted_items handlers), Ret tt)
  /\ main handlers (take 1 sys_argv) None =
       (map help_line (sorted_items handlers), Ret tt)
  /\ sorted_items handlers ≡ₚ map_to_list handlers
  /\ StronglySorted item_le (sorted_items handlers)
  /\ NoDup (sorted_items handlers).*1
  /\ main handlers sys_argv (Some (name :: rest)) =
       ([Stdout ("Error: Unknown action " +:+ name)], Ret tt).
Proof.
  intros Hname. split; [apply main_no_token|]. split.
  { rewrite <- (main_no_token handlers sys_argv). unfold main.
    by destruct sys_argv as [|prog [|a argv]]. }
  split; [apply merge_sort_Permutation|].
  split; [apply StronglySorted_merge_sort; apply _|].
  split; [apply sorted_items_keys_NoDup|].
  rewrite main_dispatch, Hname. reflexivity.
Qed.

(** The theorem for the registry that holds the function [Load] alone and
    for the token [dump]. *)
Lemma main_help_and_unknown_witness :
  (handler "Load videos" None Load ∅).1 !! "dump" = None
  /\ main (handler "Load videos" None Load ∅).1 ["turkic"; "dump"; "x"]
       (Some ["dump"; "x"]) =
     ([Stdout "Error: Unknown action dump"], Ret tt)
  /\ main (handler "Load videos" None Load ∅).1 ["turkic"] None =
     ([Stdout (spaces 11 +:+ "load   Load videos" +:+ spaces 39)], Ret tt).
Proof.
  pose proof (main_help_and_unknown (handler "Load videos" None Load ∅).1
                ["turkic"; "dump"; "x"] "dump" ["x"]) as H.
  assert (Hd : (handler "Load videos" None Load ∅).1 !! "dump" = None)
    by (vm_compute; reflexivity).
  destruct (H Hd) as (_ & Hhelp & _ & _ & _ & Hunknown).
  split; [exact Hd|]. split; [exact Hunknown|].
  etransitivity; [exact Hhelp|]. vm_compute. reflexivity.
Defined.

(** C10.  The decorator returns the function it is given, and stores the
    pair of that function and the help text under the lower-cased name,
    next to the entries that were there under other keys. *)
Theorem handler_returns_func (help : string) (inname : option string)
    (func : callable) (handlers : registry) :
  (handler help inname func handlers).2 = func
  /\ (handler help inname func handlers).1
       !! lower (match inname with
                 | None => __name__ func
                 | Some inname => inname
                 end) = Some (func, help)
  /\ delete (command_name inname func) (handler help inname func handlers).1 =
     delete (command_name inname func) handlers.
Proof.
  split; [reflexivity|]. split.
  - unfold handler. cbn [fst]. apply lookup_insert_eq.
  - rewrite handler_registry. apply delete_insert_eq.
Qed.

(** Registration keeps the keys lower-case, so that a token with a capital
    letter is never found. *)
Lemma handler_lowercase_keys (help : string) (inname : option string)
    (func : callable) (handlers : registry) :
  lowercase_keys handlers -> lowercase_keys (handler help inname func handlers).1.
Proof.
  intros Hl k. rewrite handler_registry.
  destruct (decide (command_name inname func = k)) as [<-|Hne].
  - intros _. apply PySpec.lower_idemp.
  - rewrite lookup_insert_ne by done. apply Hl.
Qed.

Lemma startup_lowercase_keys (config : bool) (cu : cliutil) :
  lowercase_keys (startup config cu).
Proof.
  unfold startup. destruct config; repeat apply handler_lowercase_keys;
    intros k; rewrite lookup_empty; by intros [? ?].
Qed.

Lemma main_capital_token_unknown (handlers : registry) (sys_argv : list string)
    (token : string) (rest : list string) :
  lowercase_keys handlers -> lower token <> token ->
  main handlers sys_argv (Some (token :: rest)) = unknown_action token.
Proof.
  intros Hl Htoken. rewrite main_dispatch.
  destruct (handlers !! token) as [[h help]|] eqn:E; [|reflexivity].
  destruct Htoken. apply Hl. by rewrite E.
Qed.

(** C3, as stated, fails: the function [Load] is registered under [load],
    and [main] finds it for the token [load] but reports the token [Load],
    the very name of the function, as an unknown action. *)
Lemma dispatch_is_case_sensitive :
  (handler "Load videos" None Load ∅).1 !! "load" = Some (Load, "Load videos")
  /\ main (handler "Load videos" None Load ∅).1 ["turkic"; "load"] None =
     ([Called "Load" []; Stdout "loading"], Ret tt)
  /\ main (handler "Load videos" None Load ∅).1 ["turkic"; "Load"] None =
     ([Stdout "Error: Unknown action Load"], Ret tt)
  /\ main (handler "Load videos" None Load ∅).1 ["turkic"; "Load"] None <>
     run_handler Load ["Load"]
  /\ lower "Load" = lower "load".
Proof.
  split; [vm_compute; reflexivity|]. split; [vm_compute; reflexivity|].
  split; [vm_compute; reflexivity|]. split; [|reflexivity].
  vm_compute. discriminate.
Qed.

(** C3 (as amended).  Names are lower-cased at registration and the token
    is looked up as it is at dispatch: two registrations under names that
    differ only in case leave one entry, that of the second, under the
    lower-cased name (a single entry in all when the registry was empty);
    the lower-cased name given as token runs that handler, and any token
    runs the handler stored under exactly that token or else is reported
    as an unknown action. *)
Theorem registration_lowercases_dispatch_exact (help1 help2 : string)
    (inname1 inname2 : option string) (func1 func2 : callable)
    (handlers : registry) (sys_argv : list string) (token : string)
    (rest : list string) :
  command_name inname1 func1 = command_name inname2 func2 ->
  let registered h :=
    (handler help2 inname2 func2 (handler help1 inname1 func1 h).1).1 in
  registered handlers = <[command_name inname1 func1 := (func2, help2)]> handlers
  /\ size (registered ∅) = 1
  /\ main (registered handlers) sys_argv (Some (command_name inname1 func1 :: rest)) =
     run_handler func2 (command_name inname1 func1 :: rest)
  /\ main (registered handlers) sys_argv (Some (token :: rest)) =
     match registered handlers !! token with
     | Some (h, _) => run_handler h (token :: rest)
     | None => ([Stdout ("Error: Unknown action " +:+ token)], Ret tt)
     end.
Proof.
  intros Hname registered.
  assert (Hreg : forall h, registered h =
            <[command_name inname1 func1 := (func2, help2)]> h).
  { intros h. unfold registered. rewrite !handler_registry, <- Hname.
    apply insert_insert_eq. }
  split; [apply Hreg|]. split.
  { rewrite Hreg, insert_empty. apply map_size_singleton. }
  split.
  - rewrite main_dispatch, Hreg, lookup_insert_eq. reflexivity.
  - apply main_dispatch.
Qed.

(** The theorem for the function [Load] registered first under its own
    name and then under the name [LOAD]. *)
Lemma registration_lowercases_dispatch_exact_witness :
  command_name None Load = command_name (Some "LOAD") Load
  /\ size (handler "Import videos" (Some "LOAD") Load
             (handler "Load videos" None Load ∅).1).1 = 1
  /\ main (handler "Import videos" (Some "LOAD") Load
             (handler "Load videos" None Load ∅).1).1
       ["turkic"; "load"; "x"] (Some ["load"; "x"]) =
     ([Called "Load" ["x"]; Stdout "loading"], Ret tt).
Proof.
  assert (Hname : command_name None Load = command_name (Some "LOAD") Load)
    by reflexivity.
  destruct (registration_lowercases_dispatch_exact "Load videos" "Import videos"
              None (Some "LOAD") Load Load ∅ ["turkic"; "load"; "x"] "load" ["x"]
              Hname) as (_ & Hsize & _ & Hmain).
  split; [exact Hname|]. split; [exact Hsize|].
  etransitivity; [exact Hmain|]. vm_compute. reflexivity.
Defined.

Lemma fmap_raise {A B} (f : A -> B) (r : result A) (e : exn) :
  f <$> r = Raise e -> r = Raise e.
Proof. destruct r; simpl; congruence. Qed.

Lemma apply_spec_no_raise (spec : option string) (v : string) (e : exn) :
  apply_spec spec v <> Raise e.
Proof.
  unfold apply_spec. destruct spec as [[|a [|d w]]|]; try discriminate.
  repeat (case_match; try discriminate).
Qed.

Lemma render_field_exn (pos : list string) (kw : list (string * string))
    (field : string) (e : exn) :
  render_field pos kw field = Raise e -> format_exn e.
Proof.
  unfold render_field, format_exn. intros H.
  repeat (case_match; try discriminate);
    try (by apply apply_spec_no_raise in H);
    inversion H; eauto.
Qed.

(** [str.format] raises nothing but [ValueError], [IndexError] and
    [KeyError]. *)
Lemma format_from_exn (pos : list string) (kw : list (string * string))
    (t : string) (st : fstate) (e : exn) :
  format_from pos kw st t = Raise e -> format_exn e.
Proof.
  revert st. induction t as [|c t IH]; intros st H.
  - destruct st; simpl in H; inversion H; left; reflexivity.
  - destruct st; simpl in H;
      repeat (case_match; try discriminate);
      try (apply fmap_raise in H); eauto.
    + destruct (render_field pos kw (rev_onto acc EmptyString)) eqn:E;
        simpl in H; try discriminate.
      * apply fmap_raise in H. eauto.
      * inversion H; subst. eapply render_field_exn, E.
    + inversion H. left; reflexivity.
Qed.

Lemma format_plural_not_implemented (args : Namespace) (name msg : string) :
  format_plural args name <> Raise (NotImplementedError msg).
Proof.
  unfold format_plural, getattr. intros H.
  destruct (args !! name) as [[| | | |t]|]; simpl in H; try discriminate.
  destruct (args !! "plural") as [v|]; simpl in H; try discriminate.
  destruct (format_arg v) as [c| |] eqn:Ec; simpl in H;
    try (destruct v; discriminate).
  apply fmap_raise, format_from_exn in H.
  destruct H as [H|[H|[k H]]]; discriminate.
Qed.

Lemma LoadCommand_group_not_implemented (args : Namespace) (msg : string) :
  LoadCommand_group args <> Raise (NotImplementedError msg).
Proof.
  unfold LoadCommand_group. intros H.
  destruct (format_plural args "title") as [t|e|] eqn:Et; simpl in H;
    [|by inversion H; subst; apply format_plural_not_implemented in Et|done].
  destruct (format_plural args "description") as [d|e|] eqn:Ed; simpl in H;
    [|by inversion H; subst; apply format_plural_not_implemented in Ed|done].
  unfold getattr in H.
  repeat (case_match; simpl in H; try discriminate).
Qed.

(** C4 (defect of the code).  [__call__] builds the group and then calls
    [self.load(self, args, group)], one argument more than a [load] of
    three parameters takes: for every body of such a [load], that of
    [LoadCommand] or an override, the call ends in [TypeError] once the
    group is built, and the body is not run.  With [load] not overridden
    the call never ends in [NotImplementedError]; for the default title
    and description and the plural [cars] the group has the plural in
    both texts and the call ends in [TypeError]. *)
Theorem LoadCommand_call_TypeError (load_body : list pyobj -> run unit)
    (args : Namespace) :
  LoadCommand_call {| nparams := 3; body := load_body |} args =
    lift_run (LoadCommand_group args ≫= fun _ => Raise TypeError)
  /\ (forall msg,
        (LoadCommand_call LoadCommand_load args).2 <> Raise (NotImplementedError msg))
  /\ LoadCommand_group example_args = Ret example_group
  /\ LoadCommand_call LoadCommand_load example_args = ([], Raise TypeError).
Proof.
  assert (Hcall : forall b,
    LoadCommand_call {| nparams := 3; body := b |} args =
    lift_run (LoadCommand_group args ≫= fun _ => Raise TypeError)).
  { intros b. unfold LoadCommand_call, call_bound, lift_run, mbind, run_bind.
    destruct (LoadCommand_group args); reflexivity. }
  split; [apply Hcall|]. split; [|split; vm_compute; reflexivity].
  intros msg. unfold LoadCommand_load. rewrite Hcall. unfold lift_run. cbn [snd].
  destruct (LoadCommand_group args) as [g|e|] eqn:E; simpl; try discriminate.
  intros H; inversion H; subst. by apply LoadCommand_group_not_implemented in E.
Qed.

(** ** Further properties of the command line *)

(** X8.  The listing of [help] does not depend on how [sorted] sorts: any
    arrangement of the items of [handlers] in the order of their names is
    the list that [help] goes through. *)
Theorem sorted_items_unique (handlers : registry)
    (l : list (string * (callable * string))) :
  l ≡ₚ map_to_list handlers -> Sorted item_le l -> l = sorted_items handlers.
Proof.
  intros Hperm Hsorted.
  apply (Sorted_unique_strong item_le); [|done|apply Sorted_merge_sort, _|].
  - intros [k1 v1] [k2 v2] H1 H2 Hle1 Hle2.
    unfold sorted_items in H2. rewrite merge_sort_Permutation in H2.
    rewrite Hperm in H1.
    apply elem_of_map_to_list in H1, H2. unfold item_le in Hle1, Hle2.
    cbn [fst] in Hle1, Hle2.
    assert (k1 = k2) as -> by (by apply (anti_symm String.le)).
    congruence.
  - unfold sorted_items. by rewrite merge_sort_Permutation.
Qed.

Lemma sorted_items_unique_witness :
  Sorted item_le [("dump", (Dump, "Dump them")); ("load", (Load, "Load videos"))]
  /\ [("dump", (Dump, "Dump them")); ("load", (Load, "Load videos"))] =
     sorted_items (handler "Dump them" None Dump
                     (handler "Load videos" None Load ∅).1).1.
Proof.
  assert (Hs : Sorted item_le
                 [("dump", (Dump, "Dump them")); ("load", (Load, "Load videos"))])
    by (repeat constructor; vm_compute; exact I).
  split; [exact Hs|].
  apply sorted_items_unique; [|exact Hs].
  vm_compute. apply perm_swap.
Defined.


(** X10.  A function handler is called with the tokens after the command name,
    and [main] ends as the handler ends: what it prints is printed and an
    exception it raises is not caught.  With no argument [main] reads the
    tokens from [sys.argv], the program name left aside. *)
Theorem main_calls_function (handlers : registry) (prog token : string)
    (rest : list string) (f help : string) (body : list string -> run unit) :
  handlers !! token = Some (Function f body, help) ->
  main handlers (prog :: token :: rest) None =
    (Called f rest :: (body rest).1, (body rest).2)
  /\ main handlers [] (Some (token :: rest)) =
    (Called f rest :: (body rest).1, (body rest).2).
Proof.
  intros H.
  assert (Hm : forall argv, main handlers argv (Some (token :: rest)) =
            (Called f rest :: (body rest).1, (body rest).2)).
  { intros argv. rewrite main_dispatch, H.
    unfold run_handler, mbind, run_bind, emit. cbn [drop]. rewrite drop_0.
    by destruct (body rest) as [ev []]. }
  split; [exact (Hm [])|exact (Hm [])].
Qed.

Lemma main_calls_function_witness :
  (handler "Load videos" None Load ∅).1 !! "load" =
    Some (Function "Load" (fun _ => print "loading"), "Load videos")
  /\ main (handler "Load videos" None Load ∅).1 ["turkic"; "load"; "a"; "b"] None =
     ([Called "Load" ["a"; "b"]; Stdout "loading"], Ret tt).
Proof.
  assert (H : (handler "Load videos" None Load ∅).1 !! "load" =
            Some (Function "Load" (fun _ => print "loading"), "Load videos"))
    by (vm_compute; reflexivity).
  split; [exact H|].
  exact (proj1 (main_calls_function _ "turkic" "load" ["a"; "b"] _ _ _ H)).
Defined.

(** X11.  A class handler goes through four steps in order, construction,
    [setup], parsing of the tokens after the command name with the command
    name as program name, call of the instance on the parsed arguments;
    the first step that raises ends [main] with that exception and the
    later steps are not run. *)
Theorem main_runs_class_in_order (handlers : registry) (sys_argv : list string)
    (token : string) (rest : list string) (cls help : string)
    (init : run unit) (setup : run ArgumentParser) (call : Namespace -> run unit) :
  handlers !! token = Some (Class cls init setup call, help) ->
  (forall ev1 e, init = (ev1, Raise e) ->
     main handlers sys_argv (Some (token :: rest)) =
     (Instantiated cls :: ev1, Raise e))
  /\ (forall ev1 ev2 e, init = (ev1, Ret tt) -> setup = (ev2, Raise e) ->
        main handlers sys_argv (Some (token :: rest)) =
        (Instantiated cls :: ev1 ++ SetupCalled cls :: ev2, Raise e))
  /\ (forall ev1 ev2 parser ev3 e,
        init = (ev1, Ret tt) -> setup = (ev2, Ret parser) ->
        parse_args parser token rest = (ev3, Raise e) ->
        main handlers sys_argv (Some (token :: rest)) =
        (Instantiated cls :: ev1 ++ SetupCalled cls :: ev2 ++ ev3, Raise e))
  /\ (forall ev1 ev2 parser ev3 parsed,
        init = (ev1, Ret tt) -> setup = (ev2, Ret parser) ->
        parse_args parser token rest = (ev3, Ret parsed) ->
        main handlers sys_argv (Some (token :: rest)) =
        (Instantiated cls :: ev1 ++ SetupCalled cls :: ev2 ++ ev3
           ++ InstanceCalled cls parsed :: (call parsed).1,
         (call parsed).2)).
Proof.
  intros H. rewrite main_dispatch, H.
  unfold run_handler, mbind, run_bind, emit.
  cbn [drop lookup list_lookup default]. rewrite drop_0.
  repeat split.
  - intros ev1 e ->. reflexivity.
  - intros ev1 ev2 e -> ->. reflexivity.
  - intros ev1 ev2 parser ev3 e -> -> Hp. cbn. rewrite Hp. cbn.
    by rewrite <- ?app_assoc.
  - intros ev1 ev2 parser ev3 parsed -> -> Hp. cbn. rewrite Hp. cbn.
    destruct (call parsed) as [ev4 r]. cbn. by rewrite <- ?app_assoc.
Qed.

Lemma main_runs_class_in_order_witness :
  (handler "Dump them" None Dump ∅).1 !! "dump" = Some (Dump, "Dump them")
  /\ main (handler "Dump them" None Dump ∅).1 [] (Some ["dump"]) =
     ([Instantiated "Dump"; SetupCalled "Dump";
       InstanceCalled "Dump" importparser_defaults; Stdout "dumping"], Ret tt)
  /\ main (handler "Dump them" None Dump ∅).1 [] (Some ["dump"; "--all"]) =
     ([Instantiated "Dump"; SetupCalled "Dump"; Stdout "usage: dump"],
      Raise SystemExit).
Proof.
  assert (H : (handler "Dump them" None Dump ∅).1 !! "dump" =
            Some (Dump, "Dump them")) by (vm_compute; reflexivity).
  split; [exact H|]. split.
  - destruct (main_runs_class_in_order _ [] "dump" [] _ _ _ _ _ H)
      as (_ & _ & _ & Hok).
    exact (Hok [] [] strict_parser [] importparser_defaults
             eq_refl eq_refl eq_refl).
  - destruct (main_runs_class_in_order _ [] "dump" ["--all"] _ _ _ _ _ H)
      as (_ & _ & Hparse & _).
    exact (Hparse [] [] strict_parser [Stdout "usage: dump"] SystemExit
             eq_refl eq_refl eq_refl).
Defined.

(** X12.  A title or description without braces is taken as it is, whatever
    the plural noun. *)
Theorem format_plural_without_placeholder (args : Namespace) (name t p : string) :
  args !! name = Some (VStr t) ->
  args !! "plural" = Some (VStr p) ->
  brace_free t = true ->
  format_plural args name = Ret (VStr t).
Proof.
  intros Ht Hp Hfree. unfold format_plural, getattr. rewrite Ht. cbn.
  rewrite Hp. cbn. by rewrite PySpec.format_brace_free.
Qed.

Lemma format_plural_without_placeholder_witness :
  brace_free "Label the street signs" = true
  /\ format_plural (<["title" := VStr "Label the street signs"]> example_args)
       "title" = Ret (VStr "Label the street signs").
Proof.
  split; [reflexivity|].
  apply (format_plural_without_placeholder _ "title" "Label the street signs" "cars");
    vm_compute; reflexivity.
Defined.

Lemma format_default_title_any (p : string) :
  format "Image annotation of {c}" [] [("c", p)] = Ret ("Image annotation of " +:+ p).
Proof.
  transitivity (Ret (A := string) ("Image annotation of " +:+ p +:+ EmptyString)).
  - reflexivity.
  - by rewrite PySpec.append_empty_r.
Qed.

Lemma format_default_description_any (p : string) :
  format "Draw boxes around {c} in this image." [] [("c", p)] =
  Ret ("Draw boxes around " +:+ p +:+ " in this image.").
Proof. reflexivity. Qed.

(** X13.  With the defaults of [importparser] and a plural noun, the group of a
    load command has the noun put into both default texts as it is, braces
    included, and the other defaults unchanged; without a plural noun,
    which [importparser] does not define, building the group fails with
    [AttributeError]. *)
Theorem LoadCommand_group_defaults (p : string) :
  LoadCommand_group (<["plural" := VStr p]> importparser_defaults) =
    Ret {| title := VStr ("Image annotation of " +:+ p);
           description := VStr ("Draw boxes around " +:+ p +:+ " in this image.");
           duration := VInt 600;
           lifetime := VInt 1209600;
           cost := VFloat (FFinite false 5764607523034235 (-58));
           bonus := VFloat (FFinite false 0 0);
           keywords := VStr EmptyString |}
  /\ LoadCommand_group importparser_defaults = Raise (AttributeError "plural").
Proof.
  split; [|vm_compute; reflexivity].
  assert (Hget : forall a, a <> "plural" ->
            getattr (<["plural" := VStr p]> importparser_defaults) a =
            getattr importparser_defaults a).
  { intros a Ha. unfold getattr. by rewrite lookup_insert_ne. }
  assert (Hplural : getattr (<["plural" := VStr p]> importparser_defaults) "plural" =
                    Ret (VStr p)).
  { unfold getattr. by rewrite lookup_insert_eq. }
  unfold LoadCommand_group, format_plural.
  rewrite (Hget "title"), (Hget "description"), (Hget "duration"),
    (Hget "lifetime"), (Hget "cost"), (Hget "bonus"), (Hget "keywords"),
    Hplural by done.
  change (getattr importparser_defaults "title")
    with (Ret (VStr "Image annotation of {c}")).
  change (getattr importparser_defaults "description")
    with (Ret (VStr "Draw boxes around {c} in this image.")).
  cbn [mbind result_bind format_arg].
  rewrite format_default_title_any, format_default_description_any.
  reflexivity.
Qed.

(** X15.  Registrations under different names can be made in either order: the
    registry, and with it the listing of [help] and every dispatch, is the
    same. *)
Theorem registration_order_irrelevant (help1 help2 : string)
    (inname1 inname2 : option string) (func1 func2 : callable)
    (handlers : registry) (sys_argv : list string) (args : option (list string)) :
  command_name inname1 func1 <> command_name inname2 func2 ->
  (handler help2 inname2 func2 (handler help1 inname1 func1 handlers).1).1 =
  (handler help1 inname1 func1 (handler help2 inname2 func2 handlers).1).1
  /\ main (handler help2 inname2 func2 (handler help1 inname1 func1 handlers).1).1
       sys_argv args =
     main (handler help1 inname1 func1 (handler help2 inname2 func2 handlers).1).1
       sys_argv args.
Proof.
  intros Hne.
  assert (Heq : (handler help2 inname2 func2
                   (handler help1 inname1 func1 handlers).1).1 =
                (handler help1 inname1 func1
                   (handler help2 inname2 func2 handlers).1).1).
  { rewrite !handler_registry. by apply insert_insert_ne. }
  split; [exact Heq | by rewrite Heq].
Qed.

Lemma registration_order_irrelevant_witness :
  command_name None Load <> command_name None Dump
  /\ (handler "Dump them" None Dump (handler "Load videos" None Load ∅).1).1 =
     (handler "Load videos" None Load (handler "Dump them" None Dump ∅).1).1.
Proof.
  assert (H : command_name None Load <> command_name None Dump)
    by (vm_compute; discriminate).
  split; [exact H|].
  exact (proj1 (registration_order_irrelevant "Load videos" "Dump them" None None
                  Load Dump ∅ [] None H)).
Defined.

(** X16.  After the registrations made at load time, with or without a
    configuration, a token with a capital letter is never a command. *)
Theorem startup_capital_token_unknown (config : bool) (cu : cliutil)
    (sys_argv : list string) (token : string) (rest : list string) :
  lower token <> token ->
  main (startup config cu) sys_argv (Some (token :: rest)) =
  ([Stdout ("Error: Unknown action " +:+ token)], Ret tt).
Proof.
  intros Htoken.
  apply (main_capital_token_unknown _ sys_argv token rest
           (startup_lowercase_keys config cu) Htoken).
Qed.

Lemma startup_capital_token_unknown_witness :
  lower "Publish" <> "Publish"
  /\ main (startup true example_cliutil) ["turkic"; "Publish"] (Some ["Publish"]) =
     ([Stdout "Error: Unknown action Publish"], Ret tt).
Proof.
  assert (H : lower "Publish" <> "Publish") by (vm_compute; discriminate).
  split; [exact H|].
  exact (startup_capital_token_unknown true example_cliutil
           ["turkic"; "Publish"] "Publish" [] H).
Defined.

Lemma sorted_items_singleton (k : string) (v : callable * string) :
  sorted_items {[ k := v ]} = [(k, v)].
Proof. unfold sorted_items. by rewrite map_to_list_singleton. Qed.

(** X17.  Without a configuration the registry holds one command, the [init] of
    [cliutil] under its lower-cased name: [help] lists that line alone and
    the name runs [init]. *)
Theorem startup_without_config (cu : cliutil) (sys_argv rest : list string) :
  startup false cu =
    {[ lower (__name__ (init cu)) := (init cu, "Start a new project") ]}
  /\ main (startup false cu) sys_argv (Some []) =
     ([Stdout (rjust 15 (lower (__name__ (init cu))) +:+ "   "
               +:+ ljust 50 "Start a new project")], Ret tt)
  /\ main (startup false cu) sys_argv (Some (lower (__name__ (init cu)) :: rest)) =
     run_handler (init cu) (lower (__name__ (init cu)) :: rest).
Proof.
  assert (Hs : startup false cu =
    {[ lower (__name__ (init cu)) := (init cu, "Start a new project") ]}).
  { unfold startup. rewrite handler_registry. apply insert_empty. }
  split; [exact Hs|]. rewrite Hs. split.
  - rewrite main_no_token, sorted_items_singleton. reflexivity.
  - rewrite main_dispatch, lookup_singleton_eq. reflexivity.
Qed.

(** X18.  With a configuration whose four commands have different lower-cased
    names, the registry holds exactly these four, each with its own help
    text, and no other token is a command: [init] is not offered unless it
    shares its name with one of them. *)
Theorem startup_with_config (cu : cliutil) (sys_argv rest : list string)
    (token : string) :
  NoDup [ lower (__name__ (progress cu)); lower (__name__ (publish cu));
          lower (__name__ (compensate cu)); lower (__name__ (setupdb cu)) ] ->
  size (startup true cu) = 4
  /\ startup true cu !! lower (__name__ (progress cu)) =
       Some (progress cu, "Report job status")
  /\ startup true cu !! lower (__name__ (publish cu)) =
       Some (publish cu, "Launch work")
  /\ startup true cu !! lower (__name__ (compensate cu)) =
       Some (compensate cu, "Pay workers")
  /\ startup true cu !! lower (__name__ (setupdb cu)) =
       Some (setupdb cu, "Setup the database")
  /\ (token ∉ [ lower (__name__ (progress cu)); lower (__name__ (publish cu));
                lower (__name__ (compensate cu)); lower (__name__ (setupdb cu)) ] ->
      main (startup true cu) sys_argv (Some (token :: rest)) =
      ([Stdout ("Error: Unknown action " +:+ token)], Ret tt)).
Proof.
  intros Hnd.
  apply NoDup_cons in Hnd as [H1 Hnd]. apply NoDup_cons in Hnd as [H2 Hnd].
  apply NoDup_cons in Hnd as [H3 _].
  repeat match goal with
         | H : _ ∉ _ :: _ |- _ => apply not_elem_of_cons in H as [? ?]
         end.
  unfold startup. rewrite !handler_registry. unfold command_name. cbn [default].
  split.
  { rewrite !map_size_insert_None, map_size_empty; [done|by simplify_map_eq..]. }
  repeat split; try (by simplify_map_eq).
  intros Ht.
  repeat match goal with
         | H : _ ∉ _ :: _ |- _ => apply not_elem_of_cons in H as [? ?]
         end.
  rewrite main_dispatch. by simplify_map_eq.
Qed.

Lemma startup_with_config_witness :
  NoDup [ lower (__name__ (progress example_cliutil));
          lower (__name__ (publish example_cliutil));
          lower (__name__ (compensate example_cliutil));
          lower (__name__ (setupdb example_cliutil)) ]
  /\ size (startup true example_cliutil) = 4
  /\ startup true example_cliutil !! "publish" =
       Some (publish example_cliutil, "Launch work")
  /\ main (startup true example_cliutil) ["turkic"; "init"] (Some ["init"]) =
     ([Stdout "Error: Unknown action init"], Ret tt).
Proof.
  assert (Hnd : NoDup [ lower (__name__ (progress example_cliutil));
                        lower (__name__ (publish example_cliutil));
                        lower (__name__ (compensate example_cliutil));
                        lower (__name__ (setupdb example_cliutil)) ]).
  { apply (bool_decide_unpack _). vm_compute. exact I. }
  destruct (startup_with_config example_cliutil ["turkic"; "init"] [] "init" Hnd)
    as (Hsize & _ & Hpub & _ & _ & Hunknown).
  split; [exact Hnd|]. split; [exact Hsize|]. split; [exact Hpub|].
  apply Hunknown. apply (bool_decide_unpack _). vm_compute. exact I.
Defined.

End CliSpec.
